(** * pr_review_agent_final.py: a shallow embedding and its specification

    The script reads a diff and a Semgrep report, builds one prompt,
    asks Gemini for a review and posts the answer on a pull request.

    Python [str] values are lists of code points ([pystr]); what the
    script does to the outside (print, the file system, PyGithub, the
    genai client) is recorded as a trace of [event]s, and what the
    outside answers is read from a [World].  A run is a pair of the
    trace and an [outcome]: a returned value, [sys.exit], or an
    exception nobody caught. *)

From Stdlib Require Import ZArith NArith List String Ascii DecimalString Bool Lia Permutation.
From ExtLib Require Import Structures.Monad.
Import ListNotations.
Import MonadNotation.
Local Open Scope monad_scope.
Local Open Scope list_scope.

Set Implicit Arguments.
Set Warnings "-register-all".

(** ** Python strings *)

Module PyStr.

(** A [str] is its sequence of code points, so that [len] is [length]
    and slicing is [firstn]. *)
Definition pystr := list N.

(** An ASCII literal of the source. *)
Definition py (lit : string) : pystr :=
  map N_of_ascii (list_ascii_of_string lit).
Arguments py : simpl never.

Definition nl : pystr := [10%N].
Definition dquote : pystr := [34%N].
Definition backslash : pystr := [92%N].

Definition eqb (a b : pystr) : bool :=
  if list_eq_dec N.eq_dec a b then true else false.

(** [str < str] compares code point by code point. *)
Definition compare (a b : pystr) : comparison := list_compare N.compare a b.

(** [sep.join(parts)] *)
Fixpoint join (sep : pystr) (parts : list pystr) : pystr :=
  match parts with
  | [] => []
  | [p] => p
  | p :: rest => p ++ sep ++ join sep rest
  end.

(** [str(n)] and [f"{n}"] for an [int] of at most 4300 digits, as are
    the ints the script writes: a number [int] read, a length, a number
    [json.load] decoded. *)
Definition str_of_int (n : Z) : pystr :=
  py (NilZero.string_of_int (Z.to_int n)).

(** [c.isspace()]: the code points [str.strip()] removes. *)
Definition isspace (c : N) : bool :=
  ((9 <=? c) && (c <=? 13) || (28 <=? c) && (c <=? 32)
   || (c =? 0x85) || (c =? 0xA0) || (c =? 0x1680)
   || (0x2000 <=? c) && (c <=? 0x200A)
   || (c =? 0x2028) || (c =? 0x2029) || (c =? 0x202F)
   || (c =? 0x205F) || (c =? 0x3000))%N.

Fixpoint lstrip (s : pystr) : pystr :=
  match s with
  | c :: rest => if isspace c then lstrip rest else s
  | [] => []
  end.

Definition rstrip (s : pystr) : pystr := rev (lstrip (rev s)).

(** [s.strip()] *)
Definition strip (s : pystr) : pystr := rstrip (lstrip s).

(** [s[:n]] *)
Definition slice_to (n : nat) (s : pystr) : pystr := firstn n s.

(** The blanks [int] skips around a numeral: those of [str.strip]
    but for the four separators 0x1c-0x1f, which [int] does not skip. *)
Definition int_blank (c : N) : bool :=
  (isspace c && negb ((28 <=? c) && (c <=? 31)))%N.

Fixpoint skip_blanks (s : pystr) : pystr :=
  match s with
  | c :: rest => if int_blank c then skip_blanks rest else s
  | [] => []
  end.

(** The digit zero of each of the 66 decimal scripts of Unicode 14.0,
    the table CPython 3.11 carries; the nine other digits of a script
    follow its zero. *)
Definition decimal_zeros : list N :=
  [   0x30; 0x660; 0x6F0; 0x7C0; 0x966; 0x9E6; 0xA66; 0xAE6;
   0xB66; 0xBE6; 0xC66; 0xCE6; 0xD66; 0xDE6; 0xE50; 0xED0;
   0xF20; 0x1040; 0x1090; 0x17E0; 0x1810; 0x1946; 0x19D0; 0x1A80;
   0x1A90; 0x1B50; 0x1BB0; 0x1C40; 0x1C50; 0xA620; 0xA8D0; 0xA900;
   0xA9D0; 0xA9F0; 0xAA50; 0xABF0; 0xFF10; 0x104A0; 0x10D30; 0x11066;
   0x110F0; 0x11136; 0x111D0; 0x112F0; 0x11450; 0x114D0; 0x11650; 0x116C0;
   0x11730; 0x118E0; 0x11950; 0x11C50; 0x11D50; 0x11DA0; 0x16A60; 0x16AC0;
   0x16B50; 0x1D7CE; 0x1D7D8; 0x1D7E2; 0x1D7EC; 0x1D7F6; 0x1E140; 0x1E2F0;
   0x1E950; 0x1FBF0]%N.

(** [unicodedata.decimal(c)], the value of [c] as a decimal digit. *)
Definition decimal_value (c : N) : option N :=
  match find (fun zero => (zero <=? c) && (c <? zero + 10))%N decimal_zeros with
  | Some zero => Some (c - zero)%N
  | None => None
  end.

(** [sys.int_info.default_max_str_digits], the most digits [int]
    converts; the interpreter is taken to run with this default. *)
Definition max_str_digits : nat := 4300.

(** The digits of a decimal numeral, most significant first; one
    underscore may stand between two digits. [acc] is the value read so
    far, [count] the number of digits read, and [after_digit] says
    whether the previous character was a digit. *)
Fixpoint int_digits (s : pystr) (acc : Z) (count : nat) (after_digit : bool)
  : option (Z * nat) :=
  match s with
  | [] => if after_digit then Some (acc, count) else None
  | c :: rest =>
      match decimal_value c with
      | Some d => int_digits rest (10 * acc + Z.of_N d) (S count) true
      | None =>
          if (c =? 95)%N && after_digit then int_digits rest acc count false
          else None
      end
  end.

(** [int(s)] for a [str]: blanks around, an optional sign, decimal
    digits of any script, at most [max_str_digits] of them. [None]
    stands for [ValueError]. *)
Definition int_of_str (s : pystr) : option Z :=
  let numeral := rev (skip_blanks (rev (skip_blanks s))) in
  let '(negative, digits) :=
    match numeral with
    | 43%N :: ds => (false, ds)
    | 45%N :: ds => (true, ds)
    | ds => (false, ds)
    end in
  match int_digits digits 0 0 false with
  | Some (value, count) =>
      if (count <=? max_str_digits)%nat
      then Some (if negative then (- value)%Z else value)
      else None
  | None => None
  end.

(** Four lowercase hexadecimal digits, as ['{0:04x}'.format(n)] gives for
    [n < 0x10000]. *)
Definition hex_digit (d : N) : N := (if d <? 10 then 48 + d else 87 + d)%N.

Definition hex4 (n : N) : pystr :=
  [hex_digit (N.land (N.shiftr n 12) 15); hex_digit (N.land (N.shiftr n 8) 15);
   hex_digit (N.land (N.shiftr n 4) 15); hex_digit (N.land n 15)].

End PyStr.

Import PyStr.

(** ** Exceptions and JSON values *)

(** An exception: its class name and [str(e)]. Every exception below is
    a subclass of [Exception]. *)
Record exn := Exn { exn_class : pystr; exn_str : pystr }.

Inductive result (A : Type) :=
| Ok (a : A)
| Raised (e : exn).
Arguments Ok {A} a.
Arguments Raised {A} e.

Module Json.

(** A float, as much of it as [json.dumps] reads: for a finite one the
    text [repr] gives for it, and the three that are not finite, which
    [json.load] builds from NaN, Infinity and numerals too large. *)
Inductive pyfloat :=
| Finite (repr : pystr)
| PosInf
| NegInf
| NaN.

(** What [json.load] returns. A dict is its items in insertion order,
    the keys pairwise distinct; an int has at most 4300 digits, for
    [json.load] raises on a longer numeral. *)
Inductive json :=
| JNone
| JBool (b : bool)
| JInt (n : Z)
| JFloat (x : pyfloat)
| JStr (s : pystr)
| JList (items : list json)
| JDict (items : list (pystr * json)).

(** [type(v).__name__] *)
Definition type_name (v : json) : pystr :=
  match v with
  | JNone => py "NoneType"
  | JBool _ => py "bool"
  | JInt _ => py "int"
  | JFloat _ => py "float"
  | JStr _ => py "str"
  | JList _ => py "list"
  | JDict _ => py "dict"
  end.

Fixpoint lookup (key : pystr) (items : list (pystr * json)) : option json :=
  match items with
  | [] => None
  | (k, v) :: rest => if PyStr.eqb k key then Some v else lookup key rest
  end.

(** [v.get(key, default)]: only a dict has the method. *)
Definition get (v : json) (key : pystr) (default : json) : result json :=
  match v with
  | JDict items =>
      Ok (match lookup key items with Some x => x | None => default end)
  | _ => Raised (Exn (py "AttributeError")
                     (py "'" ++ type_name v ++ py "' object has no attribute 'get'"))
  end.

(** [len(v)] *)
Definition len (v : json) : result nat :=
  match v with
  | JStr s => Ok (List.length s)
  | JList items => Ok (List.length items)
  | JDict items => Ok (List.length items)
  | _ => Raised (Exn (py "TypeError")
                     (py "object of type '" ++ type_name v ++ py "' has no len()"))
  end.

(** One character of a string literal with [ensure_ascii=True]. *)
Definition escape_char (c : N) : pystr :=
  if (c =? 34)%N then backslash ++ dquote
  else if (c =? 92)%N then backslash ++ backslash
  else if (c =? 8)%N then backslash ++ py "b"
  else if (c =? 12)%N then backslash ++ py "f"
  else if (c =? 10)%N then backslash ++ py "n"
  else if (c =? 13)%N then backslash ++ py "r"
  else if (c =? 9)%N then backslash ++ py "t"
  else if ((32 <=? c) && (c <=? 126))%N then [c]
  else if (c <? 0x10000)%N then backslash ++ py "u" ++ hex4 c
  else
    let n := (c - 0x10000)%N in
    backslash ++ py "u" ++ hex4 (N.lor 0xd800 (N.land (N.shiftr n 10) 0x3ff))
    ++ backslash ++ py "u" ++ hex4 (N.lor 0xdc00 (N.land n 0x3ff)).

Definition encode_str (s : pystr) : pystr :=
  dquote ++ flat_map escape_char s ++ dquote.

(** ['\n' + ' ' * (2 * level)] *)
Definition newline_indent (level : nat) : pystr :=
  nl ++ repeat 32%N (2 * level).

(** [sorted(d.items())] on items already encoded: insertion by key. *)
Fixpoint insert_item (kv : pystr * (nat -> pystr)) (sorted : list (pystr * (nat -> pystr)))
  : list (pystr * (nat -> pystr)) :=
  match sorted with
  | [] => [kv]
  | kv' :: rest =>
      match PyStr.compare (fst kv) (fst kv') with
      | Gt => kv' :: insert_item kv rest
      | _ => kv :: sorted
      end
  end.

Definition sort_items (items : list (pystr * (nat -> pystr))) :=
  fold_right insert_item [] items.

(** The text of a value at nesting depth [level], for
    [json.dumps(v, indent=2, sort_keys=True)]. *)
Fixpoint encode (v : json) (level : nat) : pystr :=
  match v with
  | JNone => py "null"
  | JBool true => py "true"
  | JBool false => py "false"
  | JInt n => str_of_int n
  | JFloat (Finite r) => r
  | JFloat PosInf => py "Infinity"
  | JFloat NegInf => py "-Infinity"
  | JFloat NaN => py "NaN"
  | JStr s => encode_str s
  | JList [] => py "[]"
  | JList items =>
      let parts :=
        (fix each (l : list json) : list pystr :=
           match l with
           | [] => []
           | x :: rest => encode x (S level) :: each rest
           end) items in
      py "[" ++ newline_indent (S level)
      ++ join (py "," ++ newline_indent (S level)) parts
      ++ newline_indent level ++ py "]"
  | JDict [] => py "{}"
  | JDict items =>
      let encoded :=
        (fix each (l : list (pystr * json)) : list (pystr * (nat -> pystr)) :=
           match l with
           | [] => []
           | (k, x) :: rest => (k, encode x) :: each rest
           end) items in
      let parts :=
        map (fun kv => encode_str (fst kv) ++ py ": " ++ snd kv (S level))
            (sort_items encoded) in
      py "{" ++ newline_indent (S level)
      ++ join (py "," ++ newline_indent (S level)) parts
      ++ newline_indent level ++ py "}"
  end.

(** [json.dumps(v, indent=2, sort_keys=True)] *)
Definition dumps (v : json) : pystr := encode v 0.

(** The items of a dict with their values encoded, as [encode] hands
    them to the sort. *)
Definition encode_items (items : list (pystr * json)) : list (pystr * (nat -> pystr)) :=
  map (fun kv => (fst kv, encode (snd kv))) items.

End Json.

Import Json.

(** ** The outside world and the effects of a run *)

(** What the script does to the outside, in the order it does it. The
    arguments are the values the script passes, a global that is [None]
    included. *)
Inductive event :=
| EvPrint (text : pystr)
| EvPathExists (path : pystr)
| EvReadFile (path : pystr)
| EvGetRepo (token repo : option pystr)
| EvGetPull (repo : option pystr) (number : option Z)
| EvCreateIssueComment (repo : option pystr) (number : option Z) (body : pystr)
| EvGenerateContent (key : option pystr) (model persona prompt : pystr).

(** What the outside answers. [read_file] is [open(p, "r",
    encoding="utf-8")] followed by [f.read()]; [json_loads] is the
    decoder [json.load] runs on the text read. The PyGithub calls answer
    [None] when they succeed and the exception otherwise;
    [generate_content] answers [response.text], which may be [None]. *)
Record World := {
  path_exists : pystr -> bool;
  read_file : pystr -> result pystr;
  json_loads : pystr -> result json;
  get_repo : option pystr -> option pystr -> option exn;
  get_pull : option pystr -> option Z -> option exn;
  create_issue_comment : option pystr -> option Z -> pystr -> option exn;
  generate_content : option pystr -> pystr -> pystr -> pystr -> result (option pystr)
}.

(** How a piece of the script ends: it returns, it calls [sys.exit], or
    an exception leaves it. *)
Inductive outcome (A : Type) :=
| Returned (a : A)
| Exited (code : Z)
| Uncaught (e : exn).
Arguments Returned {A} a.
Arguments Exited {A} code.
Arguments Uncaught {A} e.

Definition proc (A : Type) : Type := list event * outcome A.

Definition proc_bind {A B : Type} (m : proc A) (k : A -> proc B) : proc B :=
  match m with
  | (tr, Returned a) => let (tr', o) := k a in (tr ++ tr', o)
  | (tr, Exited code) => (tr, Exited code)
  | (tr, Uncaught e) => (tr, Uncaught e)
  end.

#[global] Instance Monad_proc : Monad proc :=
  {| ret := fun _ a => ([], Returned a); bind := @proc_bind |}.

Definition trace {A : Type} (m : proc A) : list event := fst m.
Definition result_of {A : Type} (m : proc A) : outcome A := snd m.

(** The status the process ends with: 0 at the end of the script, the
    argument of [sys.exit], 1 after a traceback. *)
Definition exit_status {A : Type} (o : outcome A) : Z :=
  match o with
  | Returned _ => 0
  | Exited code => code
  | Uncaught _ => 1
  end.

Definition emit (e : event) : proc unit := ([e], Returned tt).

Definition print (text : pystr) : proc unit := emit (EvPrint text).

Definition sys_exit {A : Type} (code : Z) : proc A := ([], Exited code).

Definition raise_exn {A : Type} (e : exn) : proc A := ([], Uncaught e).

Definition of_result {A : Type} (r : result A) : proc A :=
  match r with
  | Ok a => ret a
  | Raised e => raise_exn e
  end.

Definition of_status (r : option exn) : proc unit :=
  match r with
  | None => ret tt
  | Some e => raise_exn e
  end.

(** [try: body / except Exception as e: handler e]. [SystemExit] is no
    [Exception], so an exit inside [body] goes through. *)
Definition try_except {A : Type} (body : proc A) (handler : exn -> proc A) : proc A :=
  match body with
  | (tr, Uncaught e) => let (tr', o) := handler e in (tr ++ tr', o)
  | done => done
  end.

(** Truth values of the globals: [None], the empty string and 0 are
    false. *)
Definition truthy (v : option pystr) : bool :=
  match v with
  | Some (_ :: _) => true
  | _ => false
  end.

Definition truthy_int (v : option Z) : bool :=
  match v with
  | Some n => negb (n =? 0)%Z
  | None => false
  end.

(** [f"{v}"] for a global that holds an [int] or [None]. *)
Definition format_int (v : option Z) : pystr :=
  match v with
  | Some n => str_of_int n
  | None => py "None"
  end.

(** ** The script *)

(** The module-level names the functions read. *)
Record Globals := {
  api_key : option pystr;
  github_token : option pystr;
  repo_full_name : option pystr;
  pr_number : option Z;
  semgrep_config : pystr;
  diff_path : option pystr;
  semgrep_path : option pystr
}.

Definition GEMINI_MODEL : pystr := py "gemini-2.5-flash".

Definition LLM_PERSONA : pystr :=
  py "You are an expert technical PR reviewer. Your tone is professional and focused on actionable risks. Analyze the provided Git diff and Semgrep metadata to produce a structured review.".

(** The assignments at the top of the module. [int(os.getenv("PR_NUMBER"))]
    raises [TypeError] on [None] and [ValueError] on a text that is no
    integer; both leave [pr_number] at [None]. *)
Definition load_globals (getenv : pystr -> option pystr) (argv : list pystr) : Globals :=
  {| api_key := getenv (py "GEMINI_API_KEY");
     github_token := getenv (py "GITHUB_TOKEN");
     repo_full_name := getenv (py "REPO_FULL_NAME");
     pr_number := match getenv (py "PR_NUMBER") with
                  | Some text => int_of_str text
                  | None => None
                  end;
     semgrep_config := match getenv (py "SEMGREP_CONFIG") with
                       | Some v => v
                       | None => py "auto"
                       end;
     diff_path := if (1 <? List.length argv)%nat then nth_error argv 1 else None;
     semgrep_path := if (2 <? List.length argv)%nat then nth_error argv 2 else None |}.

(** The review [read_inputs] posts for a diff too small to review. *)
Definition trivial_diff_review : pystr :=
  py "## Automated Gemini Code Review" ++ nl ++ nl ++ [0x2705%N]
  ++ py " **Agent Status:** No significant code diff detected to review.".

(** The header [post_review] puts before a review. *)
Definition review_header (number : option Z) : pystr :=
  py "## Automated Gemini Code Review for PR #" ++ format_int number ++ nl ++ nl.

Definition line (text : string) : pystr := py text ++ nl.

(** The text after the findings in the prompt. The two ranges are
    written with an en dash (U+2013). *)
Definition output_format : pystr :=
  line "### REQUIRED OUTPUT FORMAT (Strictly adhere to this structure. Max 140 words total.)"
  ++ nl
  ++ line "### Summary"
  ++ py "- 2" ++ [0x2013%N] ++ line "3 bullets detailing exact PR changes."
  ++ nl
  ++ line "### Why It Matters"
  ++ line "- Real reasoning based only on diff and security findings."
  ++ nl
  ++ line "### Issues"
  ++ line "- Synthesized list of real issues found in diff and tool output."
  ++ nl
  ++ line "### Changes Required"
  ++ py "- 1" ++ [0x2013%N] ++ line "2 essential fixes that need to be made before merging."
  ++ nl
  ++ line "RULES:"
  ++ line "- Do not output the markdown headers *inside* the bullet points."
  ++ line "- No hallucinations (use only diff and findings).".

(** The f-string of [create_mega_prompt], given the number of findings
    and their JSON text. *)
Definition content_template (diff_content : pystr) (count : nat) (findings_json : pystr) : pystr :=
  nl
  ++ line "### DIFF"
  ++ line "```diff"
  ++ diff_content ++ nl
  ++ line "```"
  ++ nl
  ++ line "### SEMGREP FINDINGS"
  ++ py "Total Findings: " ++ str_of_int (Z.of_nat count) ++ nl
  ++ nl
  ++ line "```json"
  ++ findings_json ++ nl
  ++ line "```"
  ++ nl
  ++ output_format.

(** [create_mega_prompt]: it reads no global and calls nothing outside;
    it raises when [semgrep_json] has no [get] or the findings no
    [len]. *)
Definition create_mega_prompt (diff_content : pystr) (semgrep_json : json) : result pystr :=
  match get semgrep_json (py "results") (JList []) with
  | Raised e => Raised e
  | Ok findings =>
      match len findings with
      | Raised e => Raised e
      | Ok count => Ok (content_template diff_content count (dumps findings))
      end
  end.

Section Script.

Variable g : Globals.
Variable w : World.

Definition os_path_exists (path : pystr) : proc bool :=
  emit (EvPathExists path) ;; ret (path_exists w path).

Definition open_read (path : pystr) : proc pystr :=
  emit (EvReadFile path) ;; of_result (read_file w path).

Definition post_review (review_text : pystr) (skip_header : bool) : proc unit :=
  if negb (truthy (github_token g) && truthy (repo_full_name g)
           && truthy_int (pr_number g))
  then
    print (py "Error: Missing GitHub token or PR metadata. Cannot post review.") ;;
    print (py "Generated Review:" ++ nl ++ review_text)
  else
    try_except
      (emit (EvGetRepo (github_token g) (repo_full_name g)) ;;
       of_status (get_repo w (github_token g) (repo_full_name g)) ;;
       emit (EvGetPull (repo_full_name g) (pr_number g)) ;;
       of_status (get_pull w (repo_full_name g) (pr_number g)) ;;
       let final_comment :=
         if skip_header then review_text
         else review_header (pr_number g) ++ review_text in
       emit (EvCreateIssueComment (repo_full_name g) (pr_number g) final_comment) ;;
       of_status (create_issue_comment w (repo_full_name g) (pr_number g) final_comment) ;;
       print (py "Successfully posted consolidated review to Pull Request."))
      (fun e =>
         print (py "Error posting comment to GitHub: " ++ exn_str e) ;;
         print (py "Generated Review (not posted):" ++ nl ++ review_text) ;;
         sys_exit 1).

(** The first block of [read_inputs]: the diff, or the empty string
    when [diff_path] is unset, empty or names nothing that exists. *)
Definition read_diff : proc pystr :=
  match diff_path g with
  | Some ((_ :: _) as path) =>
      found <- os_path_exists path ;;
      if found then open_read path else ret []
  | _ => ret []
  end.

(** The last block of [read_inputs]: the Semgrep report. *)
Definition read_semgrep : proc json :=
  match semgrep_path g with
  | Some ((_ :: _) as path) =>
      found <- os_path_exists path ;;
      if found then
        try_except
          (text <- open_read path ;; of_result (json_loads w text))
          (fun e =>
             print (py "Warning: Could not parse Semgrep JSON: " ++ exn_str e) ;;
             ret (JDict [(py "error", JStr (exn_str e))]))
      else ret (JDict [])
  | _ => ret (JDict [])
  end.

Definition read_inputs : proc (pystr * json) :=
  diff_content <- read_diff ;;
  if (List.length diff_content <? 10)%nat then
    post_review trivial_diff_review true ;;
    sys_exit 0
  else
    semgrep_json <- read_semgrep ;;
    ret (diff_content, semgrep_json).

Definition call_gemini_api (mega_prompt : pystr) : proc pystr :=
  if negb (truthy (api_key g)) then
    print (py "Error: GEMINI_API_KEY is not set.") ;;
    ret (py "Gemini API Call Failed: API Key is missing from the environment.")
  else
    try_except
      (emit (EvGenerateContent (api_key g) GEMINI_MODEL LLM_PERSONA mega_prompt) ;;
       text <- of_result (generate_content w (api_key g) GEMINI_MODEL LLM_PERSONA mega_prompt) ;;
       match text with
       | Some t => ret (strip t)
       | None =>
           raise_exn (Exn (py "AttributeError")
                          (py "'NoneType' object has no attribute 'strip'"))
       end)
      (fun e =>
         print (py "Error during Gemini API call: " ++ exn_str e) ;;
         ret (py "Gemini API Call Failed. Exception: "
              ++ slice_to 100 (exn_str e) ++ py "...")).

(** The names [main] reports as missing. *)
Definition missing_names : list pystr :=
  (if negb (truthy (api_key g)) then [py "GEMINI_API_KEY"] else [])
  ++ (if negb (truthy (github_token g)) then [py "GITHUB_TOKEN"] else [])
  ++ (if negb (truthy (repo_full_name g)) then [py "REPO_FULL_NAME"] else [])
  ++ (match pr_number g with None => [py "PR_NUMBER"] | Some _ => [] end).

(** The block under [if __name__ == "__main__"]. *)
Definition main : proc unit :=
  if negb (truthy (api_key g) && truthy (github_token g)
           && truthy (repo_full_name g) && truthy_int (pr_number g))
  then
    print (py "CRITICAL ERROR: Missing environment variables: "
           ++ join (py ", ") missing_names
           ++ py ". Please check YAML configuration.") ;;
    sys_exit 1
  else
    '(diff_content, semgrep_json) <- read_inputs ;;
    mega_prompt <- of_result (create_mega_prompt diff_content semgrep_json) ;;
    review_output <- call_gemini_api mega_prompt ;;
    post_review review_output false ;;
    print (nl ++ py "--- Final Review Output ---" ++ nl) ;;
    print review_output.

End Script.

(** ** Vocabulary of the specification *)

(** The four values [main] requires are set and true. *)
Definition env_ready (g : Globals) : Prop :=
  truthy (api_key g) = true /\ truthy (github_token g) = true
  /\ truthy (repo_full_name g) = true /\ truthy_int (pr_number g) = true.

(** The three values [post_review] requires are set and true. *)
Definition identity_ready (g : Globals) : Prop :=
  truthy (github_token g) = true /\ truthy (repo_full_name g) = true
  /\ truthy_int (pr_number g) = true.

(** The comment [post_review] sends. *)
Definition final_comment (g : Globals) (review_text : pystr) (skip_header : bool) : pystr :=
  if skip_header then review_text else review_header (pr_number g) ++ review_text.

(** The exception the PyGithub calls of [post_review] raise first, if
    any of them raises. *)
Definition posting_failure (g : Globals) (w : World) (review_text : pystr) (skip_header : bool)
  : option exn :=
  match get_repo w (github_token g) (repo_full_name g) with
  | Some e => Some e
  | None =>
      match get_pull w (repo_full_name g) (pr_number g) with
      | Some e => Some e
      | None =>
          create_issue_comment w (repo_full_name g) (pr_number g)
            (final_comment g review_text skip_header)
      end
  end.

(** Events on the file system, and events that reach a remote service. *)
Definition file_event (e : event) : bool :=
  match e with
  | EvPathExists _ | EvReadFile _ => true
  | _ => false
  end.

Definition service_event (e : event) : bool :=
  match e with
  | EvGetRepo _ _ | EvGetPull _ _ | EvCreateIssueComment _ _ _
  | EvGenerateContent _ _ _ _ => true
  | _ => false
  end.

Definition generation_event (e : event) : bool :=
  match e with
  | EvGenerateContent _ _ _ _ => true
  | _ => false
  end.

Definition posting_event (e : event) : bool :=
  match e with
  | EvGetRepo _ _ | EvGetPull _ _ | EvCreateIssueComment _ _ _ => true
  | _ => false
  end.

(** The line [main] prints before it gives up. *)
Definition critical_error (missing : list pystr) : pystr :=
  py "CRITICAL ERROR: Missing environment variables: "
  ++ join (py ", ") missing ++ py ". Please check YAML configuration.".

(** What [post_review] prints when a PyGithub call raised [e]. *)
Definition failure_log (e : exn) (review_text : pystr) : list event :=
  [EvPrint (py "Error posting comment to GitHub: " ++ exn_str e);
   EvPrint (py "Generated Review (not posted):" ++ nl ++ review_text)].

(** What [post_review] prints when it cannot post at all. *)
Definition unposted_log (review_text : pystr) : list event :=
  [EvPrint (py "Error: Missing GitHub token or PR metadata. Cannot post review.");
   EvPrint (py "Generated Review:" ++ nl ++ review_text)].

Definition posted_log : list event :=
  [EvPrint (py "Successfully posted consolidated review to Pull Request.")].

(** The string returned when the call to Gemini raised [e]. *)
Definition generation_fallback (e : exn) : pystr :=
  py "Gemini API Call Failed. Exception: " ++ slice_to 100 (exn_str e) ++ py "...".

(** [response.text.strip()] when [response.text] is [None]. *)
Definition no_text_error : exn :=
  Exn (py "AttributeError") (py "'NoneType' object has no attribute 'strip'").

Definition missing_key_reply : pystr :=
  py "Gemini API Call Failed: API Key is missing from the environment.".

(** What [main] does once the inputs are loaded. *)
Definition review_run (g : Globals) (w : World) (diff_content : pystr) (semgrep_json : json)
  : proc unit :=
  mega_prompt <- of_result (create_mega_prompt diff_content semgrep_json) ;;
  review_output <- call_gemini_api g w mega_prompt ;;
  post_review g w review_output false ;;
  print (nl ++ py "--- Final Review Output ---" ++ nl) ;;
  print review_output.

Definition final_echo (review_output : pystr) : list event :=
  [EvPrint (nl ++ py "--- Final Review Output ---" ++ nl); EvPrint review_output].

(** [text] has the line [l]: [l] between two line ends. *)
Definition has_line (text l : pystr) : Prop :=
  exists before after, text = before ++ nl ++ l ++ nl ++ after.

(** Every run of [main] that passes the startup check has one of six
    shapes, told apart by what the world answers. *)
Inductive main_shape (g : Globals) (w : World) : proc unit -> Prop :=
| diff_unreadable tr e :
    read_diff g w = (tr, Uncaught e) ->
    main_shape g w (tr, Uncaught e)
| short_diff_posted tr d :
    read_diff g w = (tr, Returned d) -> List.length d < 10 ->
    posting_failure g w trivial_diff_review true = None ->
    main_shape g w (tr ++ trace (post_review g w trivial_diff_review true), Exited 0)
| short_diff_unposted tr d e :
    read_diff g w = (tr, Returned d) -> List.length d < 10 ->
    posting_failure g w trivial_diff_review true = Some e ->
    main_shape g w (tr ++ trace (post_review g w trivial_diff_review true), Exited 1)
| prompt_raises tr d trs f e :
    read_diff g w = (tr, Returned d) -> 10 <= List.length d ->
    read_semgrep g w = (trs, Returned f) ->
    create_mega_prompt d f = Raised e ->
    main_shape g w (tr ++ trs, Uncaught e)
| review_posted tr d trs f prompt trc review :
    read_diff g w = (tr, Returned d) -> 10 <= List.length d ->
    read_semgrep g w = (trs, Returned f) ->
    create_mega_prompt d f = Ok prompt ->
    call_gemini_api g w prompt = (trc, Returned review) ->
    posting_failure g w review false = None ->
    main_shape g w
      (tr ++ trs ++ trc ++ trace (post_review g w review false) ++ final_echo review,
       Returned tt)
| review_unposted tr d trs f prompt trc review e :
    read_diff g w = (tr, Returned d) -> 10 <= List.length d ->
    read_semgrep g w = (trs, Returned f) ->
    create_mega_prompt d f = Ok prompt ->
    call_gemini_api g w prompt = (trc, Returned review) ->
    posting_failure g w review false = Some e ->
    main_shape g w
      (tr ++ trs ++ trc ++ trace (post_review g w review false), Exited 1).

(** Events that send a comment. *)
Definition comment_event (e : event) : bool :=
  match e with
  | EvCreateIssueComment _ _ _ => true
  | _ => false
  end.

(** The values [len] accepts. *)
Definition has_len (v : json) : bool :=
  match v with
  | JStr _ | JList _ | JDict _ => true
  | _ => false
  end.

(** The reports [create_mega_prompt] accepts: a dict whose "results",
    when it has one, has a length. *)
Definition well_shaped (report : json) : bool :=
  match report with
  | JDict items =>
      match lookup (py "results") items with
      | Some findings => has_len findings
      | None => true
      end
  | _ => false
  end.

(** A text with no blank at either end. *)
Definition trimmed (s : pystr) : Prop :=
  match s with
  | [] => True
  | c :: _ => isspace c = false /\ isspace (last s c) = false
  end.

(** The four names the startup check knows, in the order it tests
    them. *)
Definition required_names : list pystr :=
  [py "GEMINI_API_KEY"; py "GITHUB_TOKEN"; py "REPO_FULL_NAME"; py "PR_NUMBER"].

(** Two lists of encoded items with the same keys and the same texts,
    item by item. *)
Definition agree (l r : list (pystr * (nat -> pystr))) : Prop :=
  Forall2 (fun p q => fst p = fst q /\ forall level, snd p level = snd q level) l r.

(** Two lists of items with the same keys, item by item, and values
    related by [Q]. *)
Definition matched (Q : json -> json -> Prop) (l r : list (pystr * json)) : Prop :=
  Forall2 (fun p q => fst p = fst q /\ Q (snd p) (snd q)) l r.

(** What the specification calls a missing value: a variable that is
    not set, one of the three texts set to the empty string, a
    PR_NUMBER that is no integer. *)
Definition is_missing (getenv : pystr -> option pystr) (name : pystr) : bool :=
  match getenv name with
  | None => true
  | Some text =>
      if PyStr.eqb name (py "PR_NUMBER")
      then match int_of_str text with None => true | Some _ => false end
      else match text with [] => true | _ :: _ => false end
  end.

(** The names of a listing, each followed by a comma and a space. *)
Definition comma_ended (names : list pystr) : pystr :=
  flat_map (fun name => name ++ py ", ") names.

(** [text] occurs in [whole]. *)
Definition occurs_in (text whole : pystr) : Prop :=
  exists before after, whole = before ++ text ++ after.

Definition pyfloat_eqb (x y : pyfloat) : bool :=
  match x, y with
  | Finite a, Finite b => PyStr.eqb a b
  | PosInf, PosInf | NegInf, NegInf | NaN, NaN => true
  | _, _ => false
  end.

Fixpoint distinct (keys : list pystr) : bool :=
  match keys with
  | [] => true
  | k :: rest => negb (existsb (PyStr.eqb k) rest) && distinct rest
  end.

(** The keys of every dict inside [v] are pairwise distinct, as they
    are in what [json.load] returns. *)
Fixpoint unique_keys (v : json) : bool :=
  match v with
  | JList items =>
      (fix all (l : list json) : bool :=
         match l with
         | [] => true
         | x :: rest => unique_keys x && all rest
         end) items
  | JDict items =>
      distinct (map fst items)
      && (fix all (l : list (pystr * json)) : bool :=
            match l with
            | [] => true
            | (_, x) :: rest => unique_keys x && all rest
            end) items
  | _ => true
  end.

(** [a] and [b] are the same JSON value: the same scalars, lists with
    the same items in the same order, dicts with the same keys bound to
    the same values, in whatever order the keys were inserted. *)
Fixpoint same_value (a b : json) : bool :=
  match a, b with
  | JNone, JNone => true
  | JBool x, JBool y => Bool.eqb x y
  | JInt x, JInt y => (x =? y)%Z
  | JFloat x, JFloat y => pyfloat_eqb x y
  | JStr x, JStr y => PyStr.eqb x y
  | JList xs, JList ys =>
      (fix all2 (l : list json) (r : list json) : bool :=
         match l, r with
         | [], [] => true
         | x :: l', y :: r' => same_value x y && all2 l' r'
         | _, _ => false
         end) xs ys
  | JDict xs, JDict ys =>
      (List.length xs =? List.length ys)%nat
      && (fix all (l : list (pystr * json)) : bool :=
            match l with
            | [] => true
            | (k, x) :: rest =>
                match lookup k ys with
                | Some y => same_value x y
                | None => false
                end && all rest
            end) xs
  | _, _ => false
  end.

(** ** Sample runs *)

Module Sample.

(** An environment given by its bindings. *)
Fixpoint environ (bindings : list (string * string)) (name : pystr) : option pystr :=
  match bindings with
  | [] => None
  | (k, v) :: rest => if PyStr.eqb (py k) name then Some (py v) else environ rest name
  end.

Definition getenv_full : pystr -> option pystr :=
  environ [("GEMINI_API_KEY", "g-key"); ("GITHUB_TOKEN", "t-123");
           ("REPO_FULL_NAME", "owner/repo"); ("PR_NUMBER", "42")]%string.

Definition getenv_other : pystr -> option pystr :=
  environ [("GEMINI_API_KEY", "another-key"); ("GITHUB_TOKEN", "t-456");
           ("REPO_FULL_NAME", "someone/else"); ("PR_NUMBER", "7")]%string.

Definition getenv_no_pr : pystr -> option pystr :=
  environ [("GEMINI_API_KEY", "g-key"); ("GITHUB_TOKEN", "t-123");
           ("REPO_FULL_NAME", "owner/repo")]%string.

Definition getenv_pr_zero : pystr -> option pystr :=
  environ [("GEMINI_API_KEY", "g-key"); ("GITHUB_TOKEN", "t-123");
           ("REPO_FULL_NAME", "owner/repo"); ("PR_NUMBER", "0")]%string.

Definition getenv_no_key : pystr -> option pystr :=
  environ [("GITHUB_TOKEN", "t-123"); ("REPO_FULL_NAME", "owner/repo");
           ("PR_NUMBER", "42")]%string.

Definition getenv_no_token : pystr -> option pystr :=
  environ [("GEMINI_API_KEY", "g-key"); ("REPO_FULL_NAME", "owner/repo");
           ("PR_NUMBER", "42")]%string.

Definition argv_both : list pystr :=
  [py "pr_review_agent_final.py"; py "pr.diff"; py "semgrep.json"].

Definition argv_none : list pystr := [py "pr_review_agent_final.py"].

Definition diff_text : pystr := py "+ a changed line of code".

Definition one_finding : json :=
  JDict [(py "results", JList [JDict [(py "rule", JStr (py "x"))]])].

Definition timeout_error : exn :=
  Exn (py "TimeoutError")
      (py "the request to the service timed out after waiting for a response from the remote end of the connection, giving up").

(** Both files are there, both services answer. *)
Definition world_ok : World :=
  {| path_exists := fun _ => true;
     read_file := fun path =>
       if PyStr.eqb path (py "pr.diff") then Ok diff_text else Ok (py "{...}");
     json_loads := fun _ => Ok one_finding;
     get_repo := fun _ _ => None;
     get_pull := fun _ _ => None;
     create_issue_comment := fun _ _ _ => None;
     generate_content := fun _ _ _ _ => Ok (Some (py "OK")) |}.

(** GitHub refuses the comment. *)
Definition world_post_fails : World :=
  {| path_exists := path_exists world_ok;
     read_file := read_file world_ok;
     json_loads := json_loads world_ok;
     get_repo := fun _ _ => None;
     get_pull := fun _ _ => None;
     create_issue_comment := fun _ _ _ => Some (Exn (py "GithubException") (py "403 Forbidden"));
     generate_content := generate_content world_ok |}.

(** The report does not decode. *)
Definition world_bad_json : World :=
  {| path_exists := path_exists world_ok;
     read_file := read_file world_ok;
     json_loads := fun _ =>
       Raised (Exn (py "JSONDecodeError") (py "Expecting value: line 1 column 2 (char 1)"));
     get_repo := fun _ _ => None;
     get_pull := fun _ _ => None;
     create_issue_comment := fun _ _ _ => None;
     generate_content := generate_content world_ok |}.

(** Gemini does not answer. *)
Definition world_gemini_down : World :=
  {| path_exists := path_exists world_ok;
     read_file := read_file world_ok;
     json_loads := json_loads world_ok;
     get_repo := fun _ _ => None;
     get_pull := fun _ _ => None;
     create_issue_comment := fun _ _ _ => None;
     generate_content := fun _ _ _ _ => Raised timeout_error |}.

(** The diff is there and cannot be opened. *)
Definition permission_error : exn :=
  Exn (py "PermissionError") (py "[Errno 13] Permission denied: 'pr.diff'").

Definition world_diff_unreadable : World :=
  {| path_exists := path_exists world_ok;
     read_file := fun path =>
       if PyStr.eqb path (py "pr.diff") then Raised permission_error else Ok (py "{...}");
     json_loads := json_loads world_ok;
     get_repo := fun _ _ => None;
     get_pull := fun _ _ => None;
     create_issue_comment := fun _ _ _ => None;
     generate_content := generate_content world_ok |}.

(** The report decodes to a list, not to a dict. *)
Definition world_report_list : World :=
  {| path_exists := path_exists world_ok;
     read_file := read_file world_ok;
     json_loads := fun _ => Ok (JList [JDict [(py "rule", JStr (py "x"))]]);
     get_repo := fun _ _ => None;
     get_pull := fun _ _ => None;
     create_issue_comment := fun _ _ _ => None;
     generate_content := generate_content world_ok |}.

(** The repository cannot be found. *)
Definition world_no_repo : World :=
  {| path_exists := path_exists world_ok;
     read_file := read_file world_ok;
     json_loads := json_loads world_ok;
     get_repo := fun _ _ => Some (Exn (py "UnknownObjectException") (py "404 Not Found"));
     get_pull := fun _ _ => None;
     create_issue_comment := fun _ _ _ => None;
     generate_content := generate_content world_ok |}.

(** Gemini answers with blanks around the text. *)
Definition world_padded_answer : World :=
  {| path_exists := path_exists world_ok;
     read_file := read_file world_ok;
     json_loads := json_loads world_ok;
     get_repo := fun _ _ => None;
     get_pull := fun _ _ => None;
     create_issue_comment := fun _ _ _ => None;
     generate_content := fun _ _ _ _ => Ok (Some (py "  Looks fine. " ++ nl)) |}.

Definition getenv_empty_key : pystr -> option pystr :=
  environ [("GEMINI_API_KEY", ""); ("GITHUB_TOKEN", "t-123");
           ("REPO_FULL_NAME", "owner/repo"); ("PR_NUMBER", "42")]%string.

Definition getenv_with_config : pystr -> option pystr :=
  environ [("GEMINI_API_KEY", "g-key"); ("GITHUB_TOKEN", "t-123");
           ("REPO_FULL_NAME", "owner/repo"); ("PR_NUMBER", "42");
           ("SEMGREP_CONFIG", "p/ci")]%string.

Definition argv_diff_only : list pystr :=
  [py "pr_review_agent_final.py"; py "pr.diff"].

(** PR_NUMBER holds a unit separator before the digit, or the
    Arabic-Indic digit zero. *)
Definition getenv_pr_separator (name : pystr) : option pystr :=
  if PyStr.eqb name (py "PR_NUMBER") then Some [0x1F; 48]%N else getenv_full name.

Definition getenv_pr_arabic_zero (name : pystr) : option pystr :=
  if PyStr.eqb name (py "PR_NUMBER") then Some [0x660]%N else getenv_full name.

(** The key is set to the empty string and PR_NUMBER is not set. *)
Definition getenv_two_missing : pystr -> option pystr :=
  environ [("GEMINI_API_KEY", ""); ("GITHUB_TOKEN", "t-123");
           ("REPO_FULL_NAME", "owner/repo")]%string.

(** One report written twice, the members of its objects in two
    orders. *)
Definition report : json :=
  JDict [(py "version", JStr (py "1.2"));
         (py "results",
          JList [JDict [(py "path", JStr (py "a.py")); (py "line", JInt 3);
                        (py "score", JFloat (Finite (py "0.5")))]])].

Definition report_reordered : json :=
  JDict [(py "results",
          JList [JDict [(py "score", JFloat (Finite (py "0.5")));
                        (py "path", JStr (py "a.py")); (py "line", JInt 3)]]);
         (py "version", JStr (py "1.2"))].

Definition world_report : World :=
  {| path_exists := path_exists world_ok;
     read_file := read_file world_ok;
     json_loads := fun _ => Ok report;
     get_repo := fun _ _ => None;
     get_pull := fun _ _ => None;
     create_issue_comment := fun _ _ _ => None;
     generate_content := generate_content world_ok |}.

Definition world_report_reordered : World :=
  {| path_exists := path_exists world_ok;
     read_file := read_file world_ok;
     json_loads := fun _ => Ok report_reordered;
     get_repo := fun _ _ => None;
     get_pull := fun _ _ => None;
     create_issue_comment := fun _ _ _ => None;
     generate_content := fun _ _ _ _ => Raised timeout_error |}.

End Sample.

(** ** The model on concrete values *)

Example int_of_str_values :
  map int_of_str [py "42"; py " +1_000 "; py "-0"; py "007"; py ""; py "4 2"; py "1__0";
                  py "_1"; py "1_"; py "0x10"; py "12.0"]
  = [Some 42%Z; Some 1000%Z; Some 0%Z; Some 7%Z; None; None; None; None; None; None; None].
Proof. reflexivity. Qed.

(** A unit separator is no blank for [int]; Arabic-Indic and fullwidth
    digits are digits; a no-break space is skipped. *)
Example int_of_str_unicode :
  map int_of_str [[0x1F; 48]; [0x664; 0x662]; [0x660]; [45; 0xFF11; 0xFF12]; [0xA0; 0x661; 0x2003];
                  [0xB2]; [48; 0x7F]]%N
  = [None; Some 42%Z; Some 0%Z; Some (-12)%Z; Some 1%Z; None; None].
Proof. reflexivity. Qed.

Example int_of_str_limit :
  int_of_str (repeat 49%N 4301) = None
  /\ int_of_str (repeat 48%N 4301) = None
  /\ int_of_str (45%N :: repeat 48%N 4300) = Some 0%Z.
Proof. repeat split; vm_compute; reflexivity. Qed.

Example dumps_floats :
  dumps (JList [JFloat (Finite (py "1e+22")); JFloat PosInf; JFloat NegInf; JFloat NaN])
  = py "[" ++ nl ++ py "  1e+22," ++ nl ++ py "  Infinity," ++ nl ++ py "  -Infinity," ++ nl
    ++ py "  NaN" ++ nl ++ py "]".
Proof. reflexivity. Qed.

Example same_value_reordered :
  same_value Sample.report Sample.report_reordered = true
  /\ unique_keys Sample.report = true
  /\ dumps Sample.report = dumps Sample.report_reordered.
Proof. repeat split. Qed.

Example pr_number_values :
  pr_number (load_globals Sample.getenv_pr_separator Sample.argv_both) = None
  /\ pr_number (load_globals Sample.getenv_pr_arabic_zero Sample.argv_both) = Some 0%Z
  /\ main (load_globals Sample.getenv_pr_separator Sample.argv_both) Sample.world_ok
     = ([EvPrint (py "CRITICAL ERROR: Missing environment variables: PR_NUMBER. Please check YAML configuration.")],
        Exited 1)
  /\ main (load_globals Sample.getenv_pr_arabic_zero Sample.argv_both) Sample.world_ok
     = ([EvPrint (py "CRITICAL ERROR: Missing environment variables: . Please check YAML configuration.")],
        Exited 1).
Proof. repeat split. Qed.

Example strip_value : strip (py "  OK" ++ nl) = py "OK".
Proof. reflexivity. Qed.

Example dumps_sorts_and_indents :
  dumps (JList [JDict [(py "rule", JStr (py "x")); (py "line", JInt 3);
                       (py "fix", JNone)]])
  = py "[" ++ nl
    ++ py "  {" ++ nl
    ++ py "    " ++ dquote ++ py "fix" ++ dquote ++ py ": null," ++ nl
    ++ py "    " ++ dquote ++ py "line" ++ dquote ++ py ": 3," ++ nl
    ++ py "    " ++ dquote ++ py "rule" ++ dquote ++ py ": " ++ dquote ++ py "x" ++ dquote ++ nl
    ++ py "  }" ++ nl
    ++ py "]".
Proof. reflexivity. Qed.

Example dumps_escapes :
  dumps (JStr [0x1F600; 233; 10; 34]%N)
  = dquote ++ backslash ++ py "ud83d" ++ backslash ++ py "ude00"
    ++ backslash ++ py "u00e9" ++ backslash ++ py "n" ++ backslash ++ dquote ++ dquote.
Proof. reflexivity. Qed.

Example create_mega_prompt_not_a_dict :
  create_mega_prompt Sample.diff_text (JList [])
  = Raised (Exn (py "AttributeError") (py "'list' object has no attribute 'get'")).
Proof. reflexivity. Qed.

Example create_mega_prompt_results_null :
  create_mega_prompt Sample.diff_text (JDict [(py "results", JNone)])
  = Raised (Exn (py "TypeError") (py "object of type 'NoneType' has no len()")).
Proof. reflexivity. Qed.

Example full_run :
  main (load_globals Sample.getenv_full Sample.argv_both) Sample.world_ok
  = ([EvPathExists (py "pr.diff"); EvReadFile (py "pr.diff");
      EvPathExists (py "semgrep.json"); EvReadFile (py "semgrep.json");
      EvGenerateContent (Some (py "g-key")) GEMINI_MODEL LLM_PERSONA
        (content_template Sample.diff_text 1
           (dumps (JList [JDict [(py "rule", JStr (py "x"))]])));
      EvGetRepo (Some (py "t-123")) (Some (py "owner/repo"));
      EvGetPull (Some (py "owner/repo")) (Some 42%Z);
      EvCreateIssueComment (Some (py "owner/repo")) (Some 42%Z)
        (py "## Automated Gemini Code Review for PR #42" ++ nl ++ nl ++ py "OK");
      EvPrint (py "Successfully posted consolidated review to Pull Request.");
      EvPrint (nl ++ py "--- Final Review Output ---" ++ nl);
      EvPrint (py "OK")],
     Returned tt).
Proof. reflexivity. Qed.

Example gemini_down_run :
  trace (main (load_globals Sample.getenv_full Sample.argv_both) Sample.world_gemini_down)
  = [EvPathExists (py "pr.diff"); EvReadFile (py "pr.diff");
     EvPathExists (py "semgrep.json"); EvReadFile (py "semgrep.json");
     EvGenerateContent (Some (py "g-key")) GEMINI_MODEL LLM_PERSONA
       (content_template Sample.diff_text 1
          (dumps (JList [JDict [(py "rule", JStr (py "x"))]])));
     EvPrint (py "Error during Gemini API call: " ++ exn_str Sample.timeout_error);
     EvGetRepo (Some (py "t-123")) (Some (py "owner/repo"));
     EvGetPull (Some (py "owner/repo")) (Some 42%Z);
     EvCreateIssueComment (Some (py "owner/repo")) (Some 42%Z)
       (py "## Automated Gemini Code Review for PR #42" ++ nl ++ nl
        ++ generation_fallback Sample.timeout_error);
     EvPrint (py "Successfully posted consolidated review to Pull Request.");
     EvPrint (nl ++ py "--- Final Review Output ---" ++ nl);
     EvPrint (generation_fallback Sample.timeout_error)].
Proof. reflexivity. Qed.

(** ** Laws of the run monad *)

Lemma bind_returned (A B : Type) (m : proc A) (k : A -> proc B) tr a :
  m = (tr, Returned a) ->
  bind m k = (tr ++ trace (k a), result_of (k a)).
Proof.
  intros ->. cbn. destruct (k a); reflexivity.
Qed.

Lemma bind_exited (A B : Type) (m : proc A) (k : A -> proc B) tr code :
  m = (tr, Exited code) -> bind m k = (tr, Exited code).
Proof. intros ->. reflexivity. Qed.

Lemma bind_uncaught (A B : Type) (m : proc A) (k : A -> proc B) tr e :
  m = (tr, Uncaught e) -> bind m k = (tr, Uncaught e).
Proof. intros ->. reflexivity. Qed.

Lemma proc_eta (A : Type) (m : proc A) : m = (trace m, result_of m).
Proof. destruct m; reflexivity. Qed.

Lemma env_ready_identity g : env_ready g -> identity_ready g.
Proof. unfold env_ready, identity_ready. tauto. Qed.

(** ** The Comment Publisher, [post_review] *)

Section PostReview.

Variable g : Globals.
Variable w : World.
Variable review_text : pystr.
Variable skip_header : bool.

Local Abbreviation token := (github_token g).
Local Abbreviation repo := (repo_full_name g).
Local Abbreviation number := (pr_number g).
Local Abbreviation body := (final_comment g review_text skip_header).

Lemma post_review_unready :
  truthy token && truthy repo && truthy_int number = false ->
  post_review g w review_text skip_header = (unposted_log review_text, Returned tt).
Proof.
  intros H. unfold post_review. rewrite H. reflexivity.
Qed.

(** Every run of [post_review] with the identity set. *)
Lemma post_review_ready :
  identity_ready g ->
  post_review g w review_text skip_header =
  match get_repo w token repo with
  | Some e => (EvGetRepo token repo :: failure_log e review_text, Exited 1)
  | None =>
      match get_pull w repo number with
      | Some e =>
          (EvGetRepo token repo :: EvGetPull repo number :: failure_log e review_text,
           Exited 1)
      | None =>
          match create_issue_comment w repo number body with
          | Some e =>
              (EvGetRepo token repo :: EvGetPull repo number
               :: EvCreateIssueComment repo number body :: failure_log e review_text,
               Exited 1)
          | None =>
              (EvGetRepo token repo :: EvGetPull repo number
               :: EvCreateIssueComment repo number body :: posted_log,
               Returned tt)
          end
      end
  end.
Proof.
  intros (Ht & Hr & Hn). unfold post_review.
  rewrite Ht, Hr, Hn.
  unfold final_comment.
  destruct (get_repo w (github_token g) (repo_full_name g)); [reflexivity|].
  destruct (get_pull w (repo_full_name g) (pr_number g)); [reflexivity|].
  destruct (create_issue_comment w (repo_full_name g) (pr_number g) _); reflexivity.
Qed.

Lemma post_review_result :
  identity_ready g ->
  result_of (post_review g w review_text skip_header) =
  match posting_failure g w review_text skip_header with
  | Some _ => Exited 1
  | None => Returned tt
  end.
Proof.
  intros H. rewrite (post_review_ready H). unfold posting_failure.
  destruct (get_repo w token repo); [reflexivity|].
  destruct (get_pull w repo number); [reflexivity|].
  destruct (create_issue_comment w repo number body); reflexivity.
Qed.

(** A posting failure leaves the two log lines as the last events. *)
Lemma post_review_failure_trace e :
  identity_ready g ->
  posting_failure g w review_text skip_header = Some e ->
  exists calls,
    post_review g w review_text skip_header
    = (calls ++ failure_log e review_text, Exited 1)
    /\ forallb posting_event calls = true.
Proof.
  intros H. rewrite (post_review_ready H). unfold posting_failure.
  destruct (get_repo w token repo) as [e1|].
  { intros [= ->]. exists [EvGetRepo token repo]. split; reflexivity. }
  destruct (get_pull w repo number) as [e2|].
  { intros [= ->]. exists [EvGetRepo token repo; EvGetPull repo number].
    split; reflexivity. }
  destruct (create_issue_comment w repo number body) as [e3|]; [|discriminate].
  intros [= ->].
  exists [EvGetRepo token repo; EvGetPull repo number;
          EvCreateIssueComment repo number body].
  split; reflexivity.
Qed.

(** Whatever happens, [post_review] never reaches the generation
    service and sends no comment but [body]. *)
Lemma post_review_no_generation :
  existsb generation_event (trace (post_review g w review_text skip_header)) = false.
Proof.
  destruct (truthy token && truthy repo && truthy_int number) eqn:H.
  - apply andb_prop in H as [H Hn]. apply andb_prop in H as [Ht Hr].
    rewrite post_review_ready by (repeat split; assumption).
    destruct (get_repo w token repo); [reflexivity|].
    destruct (get_pull w repo number); [reflexivity|].
    destruct (create_issue_comment w repo number body); reflexivity.
  - rewrite (post_review_unready H). reflexivity.
Qed.

Lemma post_review_comment r n b :
  In (EvCreateIssueComment r n b) (trace (post_review g w review_text skip_header)) ->
  r = repo /\ n = number /\ b = body.
Proof.
  destruct (truthy token && truthy repo && truthy_int number) eqn:H.
  - apply andb_prop in H as [H Hn]. apply andb_prop in H as [Ht Hr].
    rewrite post_review_ready by (repeat split; assumption).
    destruct (get_repo w token repo);
      [|destruct (get_pull w repo number);
        [|destruct (create_issue_comment w repo number body)]];
      cbn; intros Hin;
      repeat (destruct Hin as [Hin|Hin]; [try discriminate|]);
      try contradiction; injection Hin as <- <- <-; auto.
  - rewrite (post_review_unready H). cbn.
    intros [Hin|[Hin|[]]]; discriminate.
Qed.

Lemma post_review_sends :
  identity_ready g ->
  get_repo w token repo = None -> get_pull w repo number = None ->
  In (EvCreateIssueComment repo number body)
     (trace (post_review g w review_text skip_header)).
Proof.
  intros H H1 H2. rewrite (post_review_ready H), H1, H2.
  destruct (create_issue_comment w repo number body); cbn; auto.
Qed.

End PostReview.

(** ** The Review Requester, [call_gemini_api] *)

Section CallGemini.

Variable g : Globals.
Variable w : World.
Variable prompt : pystr.

Local Abbreviation request :=
  (EvGenerateContent (api_key g) GEMINI_MODEL LLM_PERSONA prompt).
Local Abbreviation answer :=
  (generate_content w (api_key g) GEMINI_MODEL LLM_PERSONA prompt).

Lemma call_gemini_api_no_key :
  truthy (api_key g) = false ->
  call_gemini_api g w prompt
  = ([EvPrint (py "Error: GEMINI_API_KEY is not set.")], Returned missing_key_reply).
Proof.
  intros H. unfold call_gemini_api. rewrite H. reflexivity.
Qed.

Lemma call_gemini_api_key :
  truthy (api_key g) = true ->
  call_gemini_api g w prompt =
  match answer with
  | Ok (Some text) => ([request], Returned (strip text))
  | Ok None =>
      ([request; EvPrint (py "Error during Gemini API call: " ++ exn_str no_text_error)],
       Returned (generation_fallback no_text_error))
  | Raised e =>
      ([request; EvPrint (py "Error during Gemini API call: " ++ exn_str e)],
       Returned (generation_fallback e))
  end.
Proof.
  intros H. unfold call_gemini_api. rewrite H.
  destruct (generate_content w (api_key g) GEMINI_MODEL LLM_PERSONA prompt) as [[text|]|e];
    reflexivity.
Qed.

(** The function is total: every run returns a string. *)
Lemma call_gemini_api_returns :
  exists review, result_of (call_gemini_api g w prompt) = Returned review.
Proof.
  destruct (truthy (api_key g)) eqn:H.
  - rewrite (call_gemini_api_key H).
    destruct answer as [[text|]|e]; eexists; reflexivity.
  - rewrite (call_gemini_api_no_key H). eexists; reflexivity.
Qed.

(** Its only request to a service carries [prompt], and it posts
    nothing. *)
Lemma call_gemini_api_request k m s p :
  In (EvGenerateContent k m s p) (trace (call_gemini_api g w prompt)) ->
  k = api_key g /\ m = GEMINI_MODEL /\ s = LLM_PERSONA /\ p = prompt.
Proof.
  destruct (truthy (api_key g)) eqn:H.
  - rewrite (call_gemini_api_key H).
    destruct answer as [[text|]|e]; cbn -[GEMINI_MODEL LLM_PERSONA];
      intros Hin;
      repeat (destruct Hin as [Hin|Hin]; [try discriminate|]);
      try contradiction; injection Hin as <- <- <- <-; auto.
  - rewrite (call_gemini_api_no_key H). cbn. intros [Hin|[]]; discriminate.
Qed.

Lemma call_gemini_api_no_posting :
  existsb posting_event (trace (call_gemini_api g w prompt)) = false.
Proof.
  destruct (truthy (api_key g)) eqn:H.
  - rewrite (call_gemini_api_key H). destruct answer as [[text|]|e]; reflexivity.
  - rewrite (call_gemini_api_no_key H). reflexivity.
Qed.

Lemma call_gemini_api_requests :
  truthy (api_key g) = true ->
  In request (trace (call_gemini_api g w prompt)).
Proof.
  intros H. rewrite (call_gemini_api_key H).
  destruct answer as [[text|]|e]; cbn; auto.
Qed.

End CallGemini.

(** ** The Input Loader, [read_inputs] *)

Section ReadInputs.

Variable g : Globals.
Variable w : World.

(** Reading the diff touches nothing but the file system, and ends
    with the text or with the exception of [open] or [read]. *)
Lemma read_diff_trace :
  existsb service_event (trace (read_diff g w)) = false
  /\ forallb file_event (trace (read_diff g w)) = true.
Proof.
  unfold read_diff.
  destruct (diff_path g) as [[|c path]|]; try (split; reflexivity).
  cbn. destruct (path_exists w (c :: path)); [|split; reflexivity].
  cbn. destruct (read_file w (c :: path)); split; reflexivity.
Qed.

Lemma read_diff_no_exit code : result_of (read_diff g w) <> Exited code.
Proof.
  unfold read_diff.
  destruct (diff_path g) as [[|c path]|]; try discriminate.
  cbn. destruct (path_exists w (c :: path)); [|discriminate].
  cbn. destruct (read_file w (c :: path)); discriminate.
Qed.

Lemma read_diff_absent :
  truthy (diff_path g) = false -> read_diff g w = ([], Returned []).
Proof.
  unfold read_diff. destruct (diff_path g) as [[|c path]|]; try reflexivity.
  discriminate.
Qed.

Lemma read_diff_not_found path :
  diff_path g = Some path -> path_exists w path = false ->
  result_of (read_diff g w) = Returned [].
Proof.
  unfold read_diff. intros -> H. destruct path; [reflexivity|].
  cbn. rewrite H. reflexivity.
Qed.

(** Reading the report never fails: an exception of [open], [read] or
    [json.load] becomes a warning and an error record. *)
Lemma read_semgrep_returns :
  exists report, result_of (read_semgrep g w) = Returned report.
Proof.
  unfold read_semgrep.
  destruct (semgrep_path g) as [[|c path]|]; try (eexists; reflexivity).
  cbn. destruct (path_exists w (c :: path)); [|eexists; reflexivity].
  cbn. destruct (read_file w (c :: path)) as [text|e]; [|eexists; reflexivity].
  cbn. destruct (json_loads w text); eexists; reflexivity.
Qed.

Lemma read_semgrep_trace :
  existsb service_event (trace (read_semgrep g w)) = false.
Proof.
  unfold read_semgrep.
  destruct (semgrep_path g) as [[|c path]|]; try reflexivity.
  cbn. destruct (path_exists w (c :: path)); [|reflexivity].
  cbn. destruct (read_file w (c :: path)) as [text|e]; [|reflexivity].
  cbn. destruct (json_loads w text); reflexivity.
Qed.

(** A report that exists and does not decode. *)
Lemma read_semgrep_malformed path text e :
  semgrep_path g = Some path -> path <> [] ->
  path_exists w path = true ->
  read_file w path = Ok text -> json_loads w text = Raised e ->
  read_semgrep g w
  = ([EvPathExists path; EvReadFile path;
      EvPrint (py "Warning: Could not parse Semgrep JSON: " ++ exn_str e)],
     Returned (JDict [(py "error", JStr (exn_str e))])).
Proof.
  intros Hp Hne Hex Hrd Hjs. unfold read_semgrep. rewrite Hp.
  destruct path as [|c path]; [contradiction|].
  cbn. rewrite Hex. cbn. rewrite Hrd. cbn. rewrite Hjs. reflexivity.
Qed.

End ReadInputs.

(** ** The Orchestrator, [main] *)

Lemma existsb_weaken (A : Type) (P Q : A -> bool) (l : list A) :
  (forall x, P x = true -> Q x = true) ->
  existsb Q l = false -> existsb P l = false.
Proof.
  intros HPQ. induction l as [|x l IH]; cbn; [reflexivity|].
  intros H. apply orb_false_elim in H as [Hx Hl].
  rewrite (IH Hl), orb_false_r.
  destruct (P x) eqn:HP; [|reflexivity].
  rewrite (HPQ x HP) in Hx. discriminate.
Qed.

Lemma existsb_false_in (A : Type) (P : A -> bool) (l : list A) (x : A) :
  existsb P l = false -> In x l -> P x = false.
Proof.
  intros H Hin. destruct (P x) eqn:HP; [|reflexivity].
  assert (existsb P l = true) by (apply existsb_exists; eauto). congruence.
Qed.

Lemma generation_is_service e : generation_event e = true -> service_event e = true.
Proof. destruct e; cbn; congruence. Qed.

Section Main.

Variable g : Globals.
Variable w : World.

Lemma main_unready :
  truthy (api_key g) && truthy (github_token g)
  && truthy (repo_full_name g) && truthy_int (pr_number g) = false ->
  main g w = ([EvPrint (critical_error (missing_names g))], Exited 1).
Proof.
  intros H. unfold main. rewrite H. reflexivity.
Qed.

Lemma main_ready :
  env_ready g ->
  main g w = ('(d, f) <- read_inputs g w ;; review_run g w d f).
Proof.
  intros (Hk & Ht & Hr & Hn). unfold main. rewrite Hk, Ht, Hr, Hn. reflexivity.
Qed.

(** The short circuit of [read_inputs]. *)
Lemma read_inputs_short tr d :
  read_diff g w = (tr, Returned d) -> List.length d < 10 ->
  read_inputs g w
  = (tr ++ trace (post_review g w trivial_diff_review true),
     match result_of (post_review g w trivial_diff_review true) with
     | Returned _ => Exited 0
     | Exited code => Exited code
     | Uncaught e => Uncaught e
     end).
Proof.
  intros Hd Hlen. unfold read_inputs.
  rewrite (bind_returned _ Hd).
  apply Nat.ltb_lt in Hlen. rewrite Hlen.
  destruct (post_review g w trivial_diff_review true) as [tr' [[]|code|e]];
    cbn; rewrite ?app_nil_r; reflexivity.
Qed.

Lemma read_inputs_long tr d trs f :
  read_diff g w = (tr, Returned d) -> 10 <= List.length d ->
  read_semgrep g w = (trs, Returned f) ->
  read_inputs g w = (tr ++ trs, Returned (d, f)).
Proof.
  intros Hd Hlen Hs. unfold read_inputs.
  rewrite (bind_returned _ Hd).
  apply Nat.ltb_ge in Hlen. rewrite Hlen.
  rewrite (bind_returned _ Hs). cbn. rewrite app_nil_r. reflexivity.
Qed.

Lemma read_inputs_fails tr e :
  read_diff g w = (tr, Uncaught e) -> read_inputs g w = (tr, Uncaught e).
Proof.
  intros Hd. unfold read_inputs. apply (bind_uncaught _ Hd).
Qed.

(** When [read_inputs] returns, the diff was long enough and no
    service has been reached yet. *)
Lemma read_inputs_returned d f :
  result_of (read_inputs g w) = Returned (d, f) ->
  result_of (read_diff g w) = Returned d
  /\ 10 <= List.length d
  /\ result_of (read_semgrep g w) = Returned f
  /\ trace (read_inputs g w) = trace (read_diff g w) ++ trace (read_semgrep g w).
Proof.
  destruct (read_diff g w) as [tr [d'|code|e]] eqn:Hd.
  - destruct (Nat.ltb_spec (List.length d') 10) as [Hlen|Hlen].
    + rewrite (read_inputs_short Hd Hlen).
      destruct (post_review g w trivial_diff_review true) as [tr' [[]|c|e]];
        cbn; discriminate.
    + destruct (read_semgrep_returns g w) as [f' Hf].
      destruct (read_semgrep g w) as [trs o] eqn:Hs. cbn in Hf. subst o.
      rewrite (read_inputs_long Hd Hlen Hs). cbn.
      intros [= -> ->]. auto.
  - exfalso. apply (read_diff_no_exit g w (code := code)). rewrite Hd. reflexivity.
  - rewrite (read_inputs_fails Hd). discriminate.
Qed.

Lemma read_inputs_returned_trace d f :
  result_of (read_inputs g w) = Returned (d, f) ->
  existsb service_event (trace (read_inputs g w)) = false.
Proof.
  intros H. apply read_inputs_returned in H as (_ & _ & _ & ->).
  rewrite existsb_app.
  rewrite (proj1 (read_diff_trace g w)), (read_semgrep_trace g w). reflexivity.
Qed.

(** The two ways [review_run] goes. *)
Lemma review_run_raises d f e :
  create_mega_prompt d f = Raised e -> review_run g w d f = ([], Uncaught e).
Proof.
  intros H. unfold review_run. rewrite H. reflexivity.
Qed.

Lemma review_run_built d f prompt trc review :
  identity_ready g ->
  create_mega_prompt d f = Ok prompt ->
  call_gemini_api g w prompt = (trc, Returned review) ->
  review_run g w d f =
  match posting_failure g w review false with
  | None => (trc ++ trace (post_review g w review false) ++ final_echo review, Returned tt)
  | Some _ => (trc ++ trace (post_review g w review false), Exited 1)
  end.
Proof.
  intros Hid Hp Hc. unfold review_run. rewrite Hp.
  rewrite (bind_returned (m := of_result (Ok prompt)) _ eq_refl).
  rewrite (bind_returned _ Hc). cbn [trace result_of fst snd app].
  pose proof (post_review_result w review false Hid) as Hres.
  pose proof (proc_eta (post_review g w review false)) as Hpost.
  rewrite Hres in Hpost.
  destruct (posting_failure g w review false).
  - rewrite (bind_exited _ Hpost). reflexivity.
  - rewrite (bind_returned _ Hpost). reflexivity.
Qed.

End Main.

(** ** The runs of [main] *)

Theorem main_cases (g : Globals) (w : World) :
  env_ready g -> main_shape g w (main g w).
Proof.
  intros Hready. pose proof (env_ready_identity Hready) as Hid.
  rewrite (main_ready w Hready).
  destruct (read_diff g w) as [tr [d|code|e]] eqn:Hd.
  - destruct (Nat.ltb_spec (List.length d) 10) as [Hlen|Hlen].
    + pose proof (read_inputs_short g w Hd Hlen) as Hri.
      rewrite (post_review_result w trivial_diff_review true Hid) in Hri.
      destruct (posting_failure g w trivial_diff_review true) eqn:Hpost;
        rewrite (bind_exited _ Hri).
      * eapply short_diff_unposted; eassumption.
      * eapply short_diff_posted; eassumption.
    + destruct (read_semgrep_returns g w) as [f Hf].
      destruct (read_semgrep g w) as [trs o] eqn:Hs. cbn in Hf. subst o.
      rewrite (bind_returned _ (read_inputs_long g w Hd Hlen Hs)).
      destruct (create_mega_prompt d f) as [prompt|e] eqn:Hp.
      * destruct (call_gemini_api_returns g w prompt) as [review Hr].
        destruct (call_gemini_api g w prompt) as [trc o] eqn:Hc. cbn in Hr. subst o.
        rewrite (@review_run_built g w d f prompt trc review Hid Hp Hc).
        destruct (posting_failure g w review false) eqn:Hpost;
          cbn [trace result_of fst snd]; rewrite <- !app_assoc.
        -- eapply review_unposted; eassumption.
        -- eapply review_posted; eassumption.
      * rewrite (@review_run_raises g w d f e Hp). cbn [trace result_of fst snd].
        rewrite app_nil_r. eapply prompt_raises; eassumption.
  - exfalso. apply (read_diff_no_exit g w (code := code)). rewrite Hd. reflexivity.
  - rewrite (bind_uncaught _ (read_inputs_fails g w Hd)).
    apply diff_unreadable. exact Hd.
Qed.

(** The run of [main] on a diff worth a review. *)
Lemma main_reviewed (g : Globals) (w : World) d f prompt :
  env_ready g ->
  result_of (read_inputs g w) = Returned (d, f) ->
  create_mega_prompt d f = Ok prompt ->
  exists trc review,
    call_gemini_api g w prompt = (trc, Returned review)
    /\ main g w =
       (trace (read_inputs g w) ++ trc ++ trace (post_review g w review false)
        ++ match posting_failure g w review false with
           | None => final_echo review
           | Some _ => []
           end,
        match posting_failure g w review false with
        | None => Returned tt
        | Some _ => Exited 1
        end).
Proof.
  intros Hready Hin Hp. pose proof (env_ready_identity Hready) as Hid.
  destruct (call_gemini_api_returns g w prompt) as [review Hr].
  destruct (call_gemini_api g w prompt) as [trc o] eqn:Hc. cbn in Hr. subst o.
  exists trc, review. split; [reflexivity|].
  rewrite (main_ready w Hready).
  pose proof (proc_eta (read_inputs g w)) as Hri. rewrite Hin in Hri.
  rewrite (bind_returned _ Hri).
  rewrite (@review_run_built g w d f prompt trc review Hid Hp Hc).
  destruct (posting_failure g w review false); cbn [trace result_of fst snd].
  - rewrite app_nil_r. reflexivity.
  - reflexivity.
Qed.

Lemma main_prompt_raises (g : Globals) (w : World) d f e :
  env_ready g ->
  result_of (read_inputs g w) = Returned (d, f) ->
  create_mega_prompt d f = Raised e ->
  main g w = (trace (read_inputs g w), Uncaught e).
Proof.
  intros Hready Hin Hp. rewrite (main_ready w Hready).
  pose proof (proc_eta (read_inputs g w)) as Hri. rewrite Hin in Hri.
  rewrite (bind_returned _ Hri), (@review_run_raises g w d f e Hp).
  cbn [trace result_of fst snd]. rewrite app_nil_r. reflexivity.
Qed.

(** Whatever [main] asks of Gemini is the prompt built from the inputs
    it loaded. *)
Lemma main_generation_request (g : Globals) (w : World) d f k m s p :
  result_of (read_inputs g w) = Returned (d, f) ->
  In (EvGenerateContent k m s p) (trace (main g w)) ->
  create_mega_prompt d f = Ok p.
Proof.
  intros Hin Hev.
  assert (Hquiet : forall tr, existsb generation_event tr = false ->
                              ~ In (EvGenerateContent k m s p) tr).
  { intros tr Hq Hi. pose proof (@existsb_false_in _ generation_event tr _ Hq Hi) as Hf. discriminate. }
  pose proof (@existsb_weaken _ generation_event service_event _ generation_is_service
                (@read_inputs_returned_trace g w d f Hin)) as Hinputs.
  destruct (truthy (api_key g) && truthy (github_token g)
            && truthy (repo_full_name g) && truthy_int (pr_number g)) eqn:Hb.
  - assert (Hready : env_ready g).
    { apply andb_prop in Hb as [Hb Hn]. apply andb_prop in Hb as [Hb Hr].
      apply andb_prop in Hb as [Hk Ht]. repeat split; assumption. }
    destruct (create_mega_prompt d f) as [prompt|e] eqn:Hp.
    + destruct (@main_reviewed g w d f prompt Hready Hin Hp) as (trc & review & Hc & Hrun).
      rewrite Hrun in Hev. cbn [trace fst] in Hev.
      apply in_app_or in Hev as [Hev|Hev]; [destruct (Hquiet _ Hinputs Hev)|].
      apply in_app_or in Hev as [Hev|Hev].
      * pose proof (@call_gemini_api_request g w prompt k m s p) as Hreq.
        rewrite Hc in Hreq. destruct (Hreq Hev) as (_ & _ & _ & ->). reflexivity.
      * apply in_app_or in Hev as [Hev|Hev].
        -- destruct (Hquiet _ (post_review_no_generation g w review false) Hev).
        -- destruct (posting_failure g w review false); [destruct Hev|].
           cbn in Hev. destruct Hev as [Hev|[Hev|[]]]; discriminate.
    + rewrite (@main_prompt_raises g w d f e Hready Hin Hp) in Hev.
      destruct (Hquiet _ Hinputs Hev).
  - rewrite (main_unready g w Hb) in Hev. cbn in Hev.
    destruct Hev as [Hev|[]]; discriminate.
Qed.

Lemma main_missing (g : Globals) (w : World) :
  truthy (api_key g) && truthy (github_token g)
  && truthy (repo_full_name g) && truthy_int (pr_number g) = false ->
  main g w = ([EvPrint (critical_error (missing_names g))], Exited 1)
  /\ exit_status (result_of (main g w)) = 1%Z
  /\ existsb file_event (trace (main g w)) = false.
Proof.
  intros H. rewrite (main_unready g w H). repeat split.
Qed.

(** ** The Prompt Builder, [create_mega_prompt] *)

Lemma content_template_count_line d count findings_json :
  has_line (content_template d count findings_json)
           (py "Total Findings: " ++ str_of_int (Z.of_nat count)).
Proof.
  exists (nl ++ line "### DIFF" ++ line "```diff" ++ d ++ nl ++ line "```" ++ nl
          ++ py "### SEMGREP FINDINGS"),
         (nl ++ line "```json" ++ findings_json ++ nl ++ line "```" ++ nl ++ output_format).
  unfold content_template, line. rewrite <- !app_assoc. reflexivity.
Qed.

Lemma create_mega_prompt_results d items findings count :
  lookup (py "results") items = Some findings ->
  len findings = Ok count ->
  create_mega_prompt d (JDict items) = Ok (content_template d count (dumps findings)).
Proof.
  intros Hl Hc. unfold create_mega_prompt, get. rewrite Hl, Hc. reflexivity.
Qed.

(** ** The text of a JSON value, whatever the order of its keys *)

(** *** The order of strings *)

Lemma N_compare_eq (x y : N) : (x ?= y)%N = Eq <-> x = y.
Proof. apply N.compare_eq_iff. Qed.

Lemma N_compare_trans (x y z : N) (c : comparison) :
  (x ?= y)%N = c -> (y ?= z)%N = c -> (x ?= z)%N = c.
Proof.
  destruct c; intros H1 H2.
  - apply N.compare_eq_iff in H1, H2. apply N.compare_eq_iff. congruence.
  - apply N.compare_lt_iff in H1, H2. apply N.compare_lt_iff.
    exact (N.lt_trans _ _ _ H1 H2).
  - apply N.compare_gt_iff in H1, H2. apply N.compare_gt_iff.
    exact (N.lt_trans _ _ _ H2 H1).
Qed.

Lemma pystr_compare_eq (a b : pystr) : PyStr.compare a b = Eq -> a = b.
Proof. apply (list_compare_refl N.compare N_compare_eq). Qed.

Lemma pystr_compare_antisym (a b : pystr) : PyStr.compare b a = CompOpp (PyStr.compare a b).
Proof. apply (list_compare_antisym N.compare N_compare_eq). apply N.compare_antisym. Qed.

Lemma pystr_compare_trans (a b c : pystr) (r : comparison) :
  PyStr.compare a b = r -> PyStr.compare b c = r -> PyStr.compare a c = r.
Proof.
  apply (list_compare_trans N.compare N_compare_eq).
  - intros x y z c0. apply N_compare_trans.
  - apply N.compare_antisym.
Qed.

(** [a > b] and [c <= b] give [a > c]. *)
Lemma pystr_compare_gt_le (a b c : pystr) :
  PyStr.compare a b = Gt -> PyStr.compare c b <> Gt -> PyStr.compare a c = Gt.
Proof.
  intros Hab Hcb. destruct (PyStr.compare c b) eqn:E; [| |congruence].
  - apply pystr_compare_eq in E. subst c. exact Hab.
  - apply (pystr_compare_trans a b c); [exact Hab|]. rewrite pystr_compare_antisym, E. reflexivity.
Qed.

Lemma pystr_eqb_eq (a b : pystr) : PyStr.eqb a b = true <-> a = b.
Proof. unfold PyStr.eqb. destruct (list_eq_dec N.eq_dec a b); split; congruence. Qed.

(** *** Sorting the items of a dict *)

Lemma insert_item_cons (p z : pystr * (nat -> pystr)) (s : list (pystr * (nat -> pystr))) :
  insert_item p (z :: s)
  = match PyStr.compare (fst p) (fst z) with
    | Gt => z :: insert_item p s
    | _ => p :: z :: s
    end.
Proof. reflexivity. Qed.

Lemma insert_item_comm (p q : pystr * (nat -> pystr)) (s : list (pystr * (nat -> pystr))) :
  fst p <> fst q ->
  insert_item p (insert_item q s) = insert_item q (insert_item p s).
Proof.
  intros Hne.
  assert (Hqp : PyStr.compare (fst q) (fst p) = CompOpp (PyStr.compare (fst p) (fst q)))
    by apply pystr_compare_antisym.
  assert (Hpq : PyStr.compare (fst p) (fst q) <> Eq)
    by (intros E; apply pystr_compare_eq in E; contradiction).
  induction s as [|z s IH].
  - cbn. rewrite Hqp. destruct (PyStr.compare (fst p) (fst q)); cbn; congruence.
  - rewrite (insert_item_cons q z s), (insert_item_cons p z s).
    destruct (PyStr.compare (fst q) (fst z)) eqn:Eq;
      destruct (PyStr.compare (fst p) (fst z)) eqn:Ep;
      rewrite !insert_item_cons, ?Eq, ?Ep.
    all: try (rewrite IH; reflexivity).
    all: try (rewrite (pystr_compare_gt_le (fst p) (fst z) (fst q)) by congruence;
              rewrite ?insert_item_cons, ?Eq, ?Ep; reflexivity).
    all: try (rewrite (pystr_compare_gt_le (fst q) (fst z) (fst p)) by congruence;
              rewrite ?insert_item_cons, ?Eq, ?Ep; reflexivity).
    all: rewrite Hqp; destruct (PyStr.compare (fst p) (fst q)); cbn [CompOpp];
      rewrite ?insert_item_cons, ?Eq, ?Ep; congruence.
Qed.

Lemma sort_items_perm (l1 l2 : list (pystr * (nat -> pystr))) :
  Permutation l1 l2 -> NoDup (map fst l1) -> sort_items l1 = sort_items l2.
Proof.
  unfold sort_items.
  induction 1 as [|x l l' Hp IH|x y l|l l' l'' Hp1 IH1 Hp2 IH2]; intros Hnd.
  - reflexivity.
  - cbn [fold_right]. inversion Hnd; subst. rewrite IH by assumption. reflexivity.
  - cbn [fold_right]. apply insert_item_comm. cbn in Hnd.
    inversion Hnd as [|? ? Hin _]; subst.
    intros Heq. apply Hin. left. symmetry. exact Heq.
  - rewrite IH1 by assumption. apply IH2.
    apply (Permutation_NoDup (Permutation_map fst Hp1) Hnd).
Qed.

Lemma insert_item_agree p q l r :
  fst p = fst q -> (forall level, snd p level = snd q level) -> agree l r ->
  agree (insert_item p l) (insert_item q r).
Proof.
  intros Hk Hv H. induction H as [|a b l r [Hab Hab'] H IH].
  - constructor; [split; assumption | constructor].
  - cbn [insert_item]. rewrite <- Hk, <- Hab.
    destruct (PyStr.compare (fst p) (fst a)).
    + constructor; [split; assumption|]. constructor; [split; assumption | exact H].
    + constructor; [split; assumption|]. constructor; [split; assumption | exact H].
    + constructor; [split; assumption | exact IH].
Qed.

Lemma sort_items_agree l r : agree l r -> agree (sort_items l) (sort_items r).
Proof.
  unfold sort_items. induction 1 as [|p q l r [Hk Hv] H IH]; cbn [fold_right].
  - constructor.
  - apply insert_item_agree; assumption.
Qed.

Lemma agree_parts l r (level : nat) :
  agree l r ->
  map (fun kv : pystr * (nat -> pystr) => encode_str (fst kv) ++ py ": " ++ snd kv level) l
  = map (fun kv : pystr * (nat -> pystr) => encode_str (fst kv) ++ py ": " ++ snd kv level) r.
Proof.
  induction 1 as [|p q l r [Hk Hv] H IH]; cbn [map]; [reflexivity|].
  rewrite Hk, Hv, IH. reflexivity.
Qed.

(** *** The items of a dict, whatever their order *)

Lemma lookup_none key items : lookup key items = None <-> ~ In key (map fst items).
Proof.
  induction items as [|[k v] items IH]; cbn [lookup map fst In].
  - tauto.
  - destruct (PyStr.eqb k key) eqn:E.
    + apply pystr_eqb_eq in E. split; [discriminate | intros H; exfalso; apply H; left; exact E].
    + assert (k <> key) by (intros X; apply pystr_eqb_eq in X; congruence). rewrite IH. tauto.
Qed.

Lemma lookup_split key items v :
  lookup key items = Some v ->
  exists before after, items = before ++ (key, v) :: after /\ ~ In key (map fst before).
Proof.
  induction items as [|[k x] items IH]; cbn [lookup]; [discriminate|].
  destruct (PyStr.eqb k key) eqn:E.
  - apply pystr_eqb_eq in E. intros [= ->]. exists [], items. subst k. split; [reflexivity | intros []].
  - intros H. destruct (IH H) as (before & after & -> & Hn).
    exists ((k, x) :: before), after. split; [reflexivity|].
    cbn [map fst In]. intros [X|X]; [|exact (Hn X)].
    apply pystr_eqb_eq in X. congruence.
Qed.

Lemma lookup_app_other key k v before after :
  k <> key -> lookup key (before ++ (k, v) :: after) = lookup key (before ++ after).
Proof.
  intros Hne. induction before as [|[k' x] before IH]; cbn [lookup app].
  - destruct (PyStr.eqb k key) eqn:E; [apply pystr_eqb_eq in E; contradiction | reflexivity].
  - rewrite IH. reflexivity.
Qed.

Lemma distinct_nodup keys : distinct keys = true -> NoDup keys.
Proof.
  induction keys as [|k keys IH]; cbn [distinct]; intros H; constructor;
    apply andb_prop in H; destruct H as [Hk Hrest].
  - intros Hin. apply negb_true_iff in Hk.
    assert (X : existsb (PyStr.eqb k) keys = true)
      by (apply existsb_exists; exists k; split; [exact Hin | apply pystr_eqb_eq; reflexivity]).
    congruence.
  - exact (IH Hrest).
Qed.

Lemma dict_matched (Q : json -> json -> Prop) (xs ys : list (pystr * json)) :
  NoDup (map fst xs) -> List.length xs = List.length ys ->
  (forall k x, In (k, x) xs -> exists y, lookup k ys = Some y /\ Q x y) ->
  exists ys', Permutation ys' ys /\ matched Q xs ys'.
Proof.
  revert ys. induction xs as [|[k x] xs IH]; intros ys Hnd Hlen Hall.
  - destruct ys; [|discriminate]. exists []. split; constructor.
  - destruct (Hall k x (or_introl eq_refl)) as (y & Hy & Hq).
    destruct (@lookup_split k ys y Hy) as (before & after & -> & Hn).
    inversion Hnd as [|? ? Hk Hnd']; subst.
    destruct (IH (before ++ after) Hnd') as (ys' & Hperm & Hm).
    + rewrite length_app in *. cbn [List.length] in Hlen. lia.
    + intros k' x' Hin.
      assert (Hne : k <> k').
      { intros ->. apply Hk. apply (in_map fst) in Hin. exact Hin. }
      destruct (Hall k' x' (or_intror Hin)) as (y' & Hy' & Hq').
      exists y'. split; [|exact Hq'].
      rewrite (@lookup_app_other k' k y before after Hne) in Hy'. exact Hy'.
    + exists ((k, y) :: ys'). split.
      * apply Permutation_cons_app. exact Hperm.
      * constructor; [split; [reflexivity | exact Hq] | exact Hm].
Qed.

Lemma matched_keys Q l r : matched Q l r -> map fst l = map fst r.
Proof.
  induction 1 as [|p q l r [Hk _] H IH]; cbn [map]; [reflexivity|]. rewrite Hk, IH. reflexivity.
Qed.

(** *** Induction on JSON values *)

Lemma json_ind' (P : json -> Prop) :
  P JNone -> (forall b, P (JBool b)) -> (forall n, P (JInt n)) ->
  (forall x, P (JFloat x)) -> (forall s, P (JStr s)) ->
  (forall items, Forall P items -> P (JList items)) ->
  (forall items, Forall (fun kv => P (snd kv)) items -> P (JDict items)) ->
  forall v, P v.
Proof.
  intros HN HB HI HF HS HL HD. fix IH 1.
  intros [|b|n|x|s|items|items];
    [exact HN | exact (HB b) | exact (HI n) | exact (HF x) | exact (HS s) | |].
  - apply HL. revert items. fix IHl 1. intros [|x rest]; constructor; [apply IH | apply IHl].
  - apply HD. revert items. fix IHl 1. intros [|[k x] rest]; constructor; [apply IH | apply IHl].
Qed.

(** *** [encode] on lists and dicts *)

Lemma encode_list (items : list json) (level : nat) :
  encode (JList items) level
  = match items with
    | [] => py "[]"
    | _ :: _ =>
        py "[" ++ newline_indent (S level)
        ++ join (py "," ++ newline_indent (S level)) (map (fun x => encode x (S level)) items)
        ++ newline_indent level ++ py "]"
    end.
Proof.
  destruct items as [|x rest]; [reflexivity|].
  assert (H : forall l, (fix each (l : list json) : list pystr :=
                           match l with
                           | [] => []
                           | x :: rest => encode x (S level) :: each rest
                           end) l = map (fun x => encode x (S level)) l).
  { induction l as [|y l IHl]; [reflexivity|]. cbn [map]. rewrite <- IHl. reflexivity. }
  rewrite <- H. reflexivity.
Qed.

Lemma encode_dict (items : list (pystr * json)) (level : nat) :
  encode (JDict items) level
  = match items with
    | [] => py "{}"
    | _ :: _ =>
        py "{" ++ newline_indent (S level)
        ++ join (py "," ++ newline_indent (S level))
             (map (fun kv : pystr * (nat -> pystr) =>
                     encode_str (fst kv) ++ py ": " ++ snd kv (S level))
                  (sort_items (encode_items items)))
        ++ newline_indent level ++ py "}"
    end.
Proof.
  destruct items as [|kv rest]; [reflexivity|].
  assert (H : forall l, (fix each (l : list (pystr * json)) : list (pystr * (nat -> pystr)) :=
                           match l with
                           | [] => []
                           | (k, x) :: rest => (k, encode x) :: each rest
                           end) l = encode_items l).
  { induction l as [|[k y] l IHl]; [reflexivity|].
    unfold encode_items. cbn [map fst snd]. unfold encode_items in IHl. rewrite <- IHl.
    reflexivity. }
  rewrite <- H. reflexivity.
Qed.

Lemma encode_items_keys items : map fst (encode_items items) = map fst items.
Proof.
  unfold encode_items. induction items as [|kv items IH]; cbn [map fst]; congruence.
Qed.

(** *** What [unique_keys] and [same_value] say *)

Lemma unique_keys_list items :
  unique_keys (JList items) = true -> Forall (fun x => unique_keys x = true) items.
Proof.
  cbn [unique_keys]. induction items as [|x rest IH]; intros H; constructor;
    apply andb_prop in H; destruct H as [Hx Hrest]; [exact Hx | exact (IH Hrest)].
Qed.

Lemma unique_keys_dict items :
  unique_keys (JDict items) = true ->
  NoDup (map fst items) /\ Forall (fun kv => unique_keys (snd kv) = true) items.
Proof.
  cbn [unique_keys]. intros H. apply andb_prop in H. destruct H as [Hd Hall].
  split; [exact (distinct_nodup _ Hd)|].
  induction items as [|[k x] rest IH]; constructor.
  - apply andb_prop in Hall. exact (proj1 Hall).
  - apply IH.
    + cbn [map distinct] in Hd. apply andb_prop in Hd. exact (proj2 Hd).
    + apply andb_prop in Hall. exact (proj2 Hall).
Qed.

Lemma pyfloat_eqb_eq x y : pyfloat_eqb x y = true -> x = y.
Proof.
  destruct x, y; cbn; intros H; try discriminate; try reflexivity.
  apply pystr_eqb_eq in H. congruence.
Qed.

Lemma same_value_list xs ys :
  same_value (JList xs) (JList ys) = true ->
  Forall2 (fun x y => same_value x y = true) xs ys.
Proof.
  cbn [same_value]. revert ys. induction xs as [|x xs IH]; intros [|y ys] H;
    try discriminate; constructor;
    apply andb_prop in H; destruct H as [Hx Hrest]; [exact Hx | exact (IH _ Hrest)].
Qed.

Lemma same_value_dict xs ys :
  same_value (JDict xs) (JDict ys) = true ->
  List.length xs = List.length ys
  /\ forall k x, In (k, x) xs -> exists y, lookup k ys = Some y /\ same_value x y = true.
Proof.
  cbn [same_value]. intros H. apply andb_prop in H. destruct H as [Hlen Hall].
  split; [apply Nat.eqb_eq; exact Hlen|]. clear Hlen.
  induction xs as [|[k0 x0] xs IH]; intros k x Hin; [destruct Hin|].
  apply andb_prop in Hall. destruct Hall as [Hhere Hrest].
  destruct Hin as [[= <- <-]|Hin].
  - destruct (lookup k0 ys) as [y|]; [|discriminate]. exists y. split; [reflexivity | exact Hhere].
  - exact (IH Hrest k x Hin).
Qed.

(** *** The same value gives the same text *)

Lemma same_value_encode (a : json) :
  unique_keys a = true ->
  forall b level, same_value a b = true -> encode a level = encode b level.
Proof.
  induction a as [|x|n|x|s|xs IH|xs IH] using json_ind'; intros Hu b level Hs.
  - destruct b; try discriminate. reflexivity.
  - destruct b as [|y| | | | |]; try discriminate. cbn [same_value] in Hs.
    apply eqb_prop in Hs. subst y. reflexivity.
  - destruct b as [| |m| | | |]; try discriminate. cbn [same_value] in Hs.
    apply Z.eqb_eq in Hs. subst m. reflexivity.
  - destruct b as [| | |y| | |]; try discriminate. cbn [same_value] in Hs.
    apply pyfloat_eqb_eq in Hs. subst y. reflexivity.
  - destruct b as [| | | |t| |]; try discriminate. cbn [same_value] in Hs.
    apply pystr_eqb_eq in Hs. subst t. reflexivity.
  - destruct b as [| | | | |ys|]; try discriminate.
    apply same_value_list in Hs. apply unique_keys_list in Hu.
    rewrite !encode_list.
    assert (Hmap : map (fun x => encode x (S level)) xs = map (fun x => encode x (S level)) ys).
    { clear - IH Hu Hs. induction Hs as [|x y xs ys Hxy Hs IHs]; [reflexivity|].
      inversion IH; subst. inversion Hu; subst. cbn [map]. f_equal; auto. }
    rewrite Hmap. destruct Hs; reflexivity.
  - destruct b as [| | | | | |ys]; try discriminate.
    apply same_value_dict in Hs. destruct Hs as [Hlen Hall].
    apply unique_keys_dict in Hu. destruct Hu as [Hnd Hu].
    destruct (@dict_matched (fun x y => forall level, encode x level = encode y level)
                xs ys Hnd Hlen) as (ys' & Hperm & Hm).
    { intros k x Hin. destruct (Hall k x Hin) as (y & Hy & Hxy).
      exists y. split; [exact Hy|]. intros l.
      rewrite Forall_forall in IH, Hu.
      exact (IH (k, x) Hin (Hu (k, x) Hin) y l Hxy). }
    rewrite !encode_dict.
    assert (Hsort : sort_items (encode_items ys) = sort_items (encode_items ys')).
    { symmetry. apply sort_items_perm.
      - unfold encode_items. apply Permutation_map. exact Hperm.
      - rewrite encode_items_keys, <- (matched_keys Hm). exact Hnd. }
    assert (Hagree : agree (encode_items xs) (encode_items ys')).
    { clear - Hm. unfold encode_items.
      induction Hm as [|p q l r [Hk Hv] H IHm]; constructor; [|exact IHm].
      cbn [fst snd]. split; assumption. }
    rewrite Hsort, (agree_parts (S level) (sort_items_agree Hagree)).
    destruct xs, ys; try discriminate; reflexivity.
Qed.

Lemma lookup_in key items v : lookup key items = Some v -> In (key, v) items.
Proof.
  intros H. destruct (@lookup_split key items v H) as (before & after & -> & _).
  apply in_or_app. right. left. reflexivity.
Qed.

Lemma same_value_len (a b : json) : same_value a b = true -> len a = len b.
Proof.
  destruct a as [| | | |s|xs|xs], b as [| | | |t|ys|ys]; try discriminate; try reflexivity.
  - cbn [same_value]. intros H. apply pystr_eqb_eq in H. subst t. reflexivity.
  - intros H. apply same_value_list in H. cbn [len].
    rewrite (Forall2_length H). reflexivity.
  - intros H. apply same_value_dict in H. cbn [len]. rewrite (proj1 H). reflexivity.
Qed.

Lemma same_value_lookup (xs ys : list (pystr * json)) (key : pystr) :
  unique_keys (JDict xs) = true -> same_value (JDict xs) (JDict ys) = true ->
  match lookup key xs with
  | Some x =>
      exists y, lookup key ys = Some y /\ same_value x y = true /\ unique_keys x = true
  | None => lookup key ys = None
  end.
Proof.
  intros Hu Hs. apply unique_keys_dict in Hu. destruct Hu as [Hnd Hu].
  apply same_value_dict in Hs. destruct Hs as [Hlen Hall].
  destruct (lookup key xs) as [x|] eqn:E.
  - apply lookup_in in E. destruct (Hall key x E) as (y & Hy & Hxy).
    exists y. repeat split; [exact Hy | exact Hxy|].
    rewrite Forall_forall in Hu. exact (Hu (key, x) E).
  - destruct (@dict_matched (fun _ _ => True) xs ys Hnd Hlen) as (ys' & Hperm & Hm).
    { intros k x Hin. destruct (Hall k x Hin) as (y & Hy & _). exists y. split; [exact Hy | exact I]. }
    apply lookup_none. apply lookup_none in E. intros Hin. apply E.
    rewrite (matched_keys Hm).
    apply (Permutation_in key (Permutation_sym (Permutation_map fst Hperm)) Hin).
Qed.

Lemma same_value_prompt (d : pystr) (f1 f2 : json) :
  unique_keys f1 = true -> same_value f1 f2 = true ->
  create_mega_prompt d f1 = create_mega_prompt d f2.
Proof.
  intros Hu Hs.
  destruct f1 as [| | | | | |xs], f2 as [| | | | | |ys]; try discriminate; try reflexivity.
  unfold create_mega_prompt. cbn [get].
  pose proof (@same_value_lookup xs ys (py "results") Hu Hs) as H.
  destruct (lookup (py "results") xs) as [x|].
  - destruct H as (y & -> & Hxy & Hux).
    rewrite (same_value_len x y Hxy). unfold dumps.
    rewrite (@same_value_encode x Hux y 0 Hxy). reflexivity.
  - rewrite H. reflexivity.
Qed.

(** ** The listing of the missing names *)

Lemma join_comma_ended (l : list pystr) :
  l <> [] -> join (py ", ") l ++ py ", " = comma_ended l.
Proof.
  unfold comma_ended. induction l as [|a [|b l] IH]; intros Hne.
  - contradiction.
  - cbn [join flat_map]. rewrite app_nil_r. reflexivity.
  - change (join (py ", ") (a :: b :: l)) with (a ++ py ", " ++ join (py ", ") (b :: l)).
    cbn [flat_map]. cbn [flat_map] in IH. rewrite <- IH by discriminate.
    rewrite <- !app_assoc. reflexivity.
Qed.

Lemma join_occurs (sep : pystr) (l : list pystr) (x : pystr) :
  In x l -> occurs_in x (join sep l).
Proof.
  unfold occurs_in. induction l as [|a [|b l] IH]; intros Hin.
  - destruct Hin.
  - destruct Hin as [->|[]]. exists [], []. cbn. rewrite app_nil_r. reflexivity.
  - change (join sep (a :: b :: l)) with (a ++ sep ++ join sep (b :: l)).
    destruct Hin as [->|Hin].
    + exists [], (sep ++ join sep (b :: l)). reflexivity.
    + destruct (IH Hin) as (before & after & ->).
      exists (a ++ sep ++ before), after. rewrite <- !app_assoc. reflexivity.
Qed.

Lemma missing_names_load (getenv : pystr -> option pystr) (argv : list pystr) :
  missing_names (load_globals getenv argv) = filter (is_missing getenv) required_names.
Proof.
  unfold missing_names, load_globals, required_names, is_missing.
  cbn [api_key github_token repo_full_name pr_number filter].
  change (PyStr.eqb (py "GEMINI_API_KEY") (py "PR_NUMBER")) with false.
  change (PyStr.eqb (py "GITHUB_TOKEN") (py "PR_NUMBER")) with false.
  change (PyStr.eqb (py "REPO_FULL_NAME") (py "PR_NUMBER")) with false.
  change (PyStr.eqb (py "PR_NUMBER") (py "PR_NUMBER")) with true.
  cbv iota.
  destruct (getenv (py "GEMINI_API_KEY")) as [[|? ?]|];
    destruct (getenv (py "GITHUB_TOKEN")) as [[|? ?]|];
    destruct (getenv (py "REPO_FULL_NAME")) as [[|? ?]|];
    (destruct (getenv (py "PR_NUMBER")) as [text|]; [destruct (int_of_str text)|]);
    reflexivity.
Qed.

Lemma missing_fails_check (g : Globals) :
  missing_names g <> [] ->
  truthy (api_key g) && truthy (github_token g)
  && truthy (repo_full_name g) && truthy_int (pr_number g) = false.
Proof.
  unfold missing_names.
  destruct (truthy (api_key g)); [|reflexivity].
  destruct (truthy (github_token g)); [|reflexivity].
  destruct (truthy (repo_full_name g)); [|reflexivity].
  destruct (pr_number g); [|reflexivity].
  intros H. contradiction H. reflexivity.
Qed.

(** ** Posting and the other services *)

Lemma posting_is_service e : posting_event e = true -> service_event e = true.
Proof. destruct e; cbn; congruence. Qed.

Lemma no_service_no_posting (l : list event) :
  existsb service_event l = false -> existsb posting_event l = false.
Proof. exact (@existsb_weaken event posting_event service_event l posting_is_service). Qed.

(** ** The claims *)

(** C2: when one of the four required values is missing from the
    environment at startup (GEMINI_API_KEY, GITHUB_TOKEN or
    REPO_FULL_NAME unset or empty, PR_NUMBER unset or no integer), the
    run is one printed line followed by [sys.exit(1)]: no file is
    looked for or read. The line is "CRITICAL ERROR: Missing
    environment variables: ", the missing names in the order of the
    check, separated by ", ", and ". Please check YAML configuration.";
    every missing name occurs in it. *)
Theorem missing_env_fails_fast (getenv : pystr -> option pystr) (argv : list pystr)
    (w : World) :
  let g := load_globals getenv argv in
  (exists name, In name required_names /\ is_missing getenv name = true) ->
  exists names_text,
    main g w
    = ([EvPrint (py "CRITICAL ERROR: Missing environment variables: " ++ names_text
                 ++ py ". Please check YAML configuration.")], Exited 1)
    /\ names_text ++ py ", " = comma_ended (filter (is_missing getenv) required_names)
    /\ (forall name, In name required_names -> is_missing getenv name = true ->
        occurs_in name names_text)
    /\ exit_status (result_of (main g w)) = 1%Z
    /\ existsb file_event (trace (main g w)) = false.
Proof.
  intros g (name & Hin & Hmiss).
  assert (Hlist : missing_names g = filter (is_missing getenv) required_names)
    by apply missing_names_load.
  assert (Hne : missing_names g <> []).
  { rewrite Hlist. intros Hnil.
    assert (X : In name (filter (is_missing getenv) required_names))
      by (apply filter_In; split; assumption).
    rewrite Hnil in X. destruct X. }
  exists (join (py ", ") (missing_names g)).
  rewrite (@main_unready g w (@missing_fails_check g Hne)).
  split; [reflexivity|]. split; [|split; [|split; reflexivity]].
  - rewrite <- Hlist. apply join_comma_ended. exact Hne.
  - intros name' Hin' Hmiss'. apply join_occurs. rewrite Hlist.
    apply filter_In. split; assumption.
Qed.

(** The run with an empty GEMINI_API_KEY and no PR_NUMBER. *)
Lemma missing_env_fails_fast_witness :
  is_missing Sample.getenv_two_missing (py "PR_NUMBER") = true
  /\ main (load_globals Sample.getenv_two_missing Sample.argv_both) Sample.world_ok
     = ([EvPrint (py "CRITICAL ERROR: Missing environment variables: GEMINI_API_KEY, PR_NUMBER. Please check YAML configuration.")],
        Exited 1).
Proof.
  split; [reflexivity|].
  destruct (@missing_env_fails_fast Sample.getenv_two_missing Sample.argv_both Sample.world_ok)
    as (names_text & Hrun & Hnames & _).
  - exists (py "PR_NUMBER"). split; [do 3 right; left; reflexivity | reflexivity].
  - rewrite Hrun.
    change (comma_ended (filter (is_missing Sample.getenv_two_missing) required_names))
      with (py "GEMINI_API_KEY, PR_NUMBER" ++ py ", ") in Hnames.
    apply app_inv_tail in Hnames. rewrite Hnames. reflexivity.
Defined.

(** C10: when PR_NUMBER reads as the integer 0 and the three other
    variables are set, the startup check still ends the run with
    [sys.exit(1)], and the printed list of missing names is empty. *)
Theorem pr_number_zero_fails_with_empty_list (getenv : pystr -> option pystr)
    (argv : list pystr) (w : World) (text : pystr) :
  let g := load_globals getenv argv in
  getenv (py "PR_NUMBER") = Some text -> int_of_str text = Some 0%Z ->
  truthy (api_key g) = true -> truthy (github_token g) = true ->
  truthy (repo_full_name g) = true ->
  pr_number g = Some 0%Z
  /\ missing_names g = []
  /\ main g w
     = ([EvPrint (py "CRITICAL ERROR: Missing environment variables: "
                  ++ py ". Please check YAML configuration.")], Exited 1)
  /\ exit_status (result_of (main g w)) = 1%Z.
Proof.
  intros g Htext Hint Hk Ht Hr.
  assert (Hn : pr_number g = Some 0%Z).
  { subst g. unfold load_globals. cbn. rewrite Htext. exact Hint. }
  assert (Hm : missing_names g = []).
  { unfold missing_names. rewrite Hk, Ht, Hr, Hn. reflexivity. }
  assert (Hfalse : truthy (api_key g) && truthy (github_token g)
                   && truthy (repo_full_name g) && truthy_int (pr_number g) = false).
  { rewrite Hk, Ht, Hr, Hn. reflexivity. }
  destruct (@main_missing g w Hfalse) as (Hrun & Hst & _).
  rewrite Hm in Hrun. repeat split; assumption.
Qed.

Lemma pr_number_zero_fails_with_empty_list_witness :
  missing_names (load_globals Sample.getenv_pr_zero Sample.argv_both) = []
  /\ result_of (main (load_globals Sample.getenv_pr_zero Sample.argv_both) Sample.world_ok)
     = Exited 1.
Proof.
  destruct (pr_number_zero_fails_with_empty_list Sample.getenv_pr_zero Sample.argv_both
              Sample.world_ok (text := py "0") eq_refl eq_refl eq_refl eq_refl eq_refl)
    as (_ & Hm & Hrun & _).
  split; [exact Hm | rewrite Hrun; reflexivity].
Defined.

(** C6: for every prompt, when GEMINI_API_KEY is unset (or empty),
    [call_gemini_api] prints one line and returns the fixed "API Key is
    missing" string; it sends nothing to any service. *)
Theorem no_api_key_no_call (g : Globals) (w : World) (prompt : pystr) :
  truthy (api_key g) = false ->
  call_gemini_api g w prompt
  = ([EvPrint (py "Error: GEMINI_API_KEY is not set.")],
     Returned (py "Gemini API Call Failed: API Key is missing from the environment."))
  /\ existsb service_event (trace (call_gemini_api g w prompt)) = false.
Proof.
  intros H. rewrite (@call_gemini_api_no_key g w prompt H). split; reflexivity.
Qed.

Lemma no_api_key_no_call_witness :
  api_key (load_globals Sample.getenv_no_key Sample.argv_both) = None
  /\ result_of (call_gemini_api (load_globals Sample.getenv_no_key Sample.argv_both)
                  Sample.world_ok (py "any prompt"))
     = Returned (py "Gemini API Call Failed: API Key is missing from the environment.").
Proof.
  split; [reflexivity|].
  destruct (@no_api_key_no_call (load_globals Sample.getenv_no_key Sample.argv_both)
              Sample.world_ok (py "any prompt") eq_refl) as [Hrun _].
  rewrite Hrun. reflexivity.
Defined.

(** C7: [call_gemini_api] always returns a string and lets no exception
    out.  When the call to Gemini raises [e] (or the response carries no
    text), the string is "Gemini API Call Failed. Exception: ", the
    first 100 characters of [str(e)] at most, and "...". *)
Theorem call_gemini_api_never_raises (g : Globals) (w : World) (prompt : pystr) :
  (exists review, result_of (call_gemini_api g w prompt) = Returned review)
  /\ (forall e,
        truthy (api_key g) = true ->
        generate_content w (api_key g) GEMINI_MODEL LLM_PERSONA prompt = Raised e ->
        result_of (call_gemini_api g w prompt)
        = Returned (py "Gemini API Call Failed. Exception: "
                    ++ slice_to 100 (exn_str e) ++ py "...")
        /\ List.length (slice_to 100 (exn_str e)) <= 100
        /\ (exists rest, exn_str e = slice_to 100 (exn_str e) ++ rest)
        /\ In (EvPrint (py "Error during Gemini API call: " ++ exn_str e))
              (trace (call_gemini_api g w prompt)))
  /\ (truthy (api_key g) = true ->
      generate_content w (api_key g) GEMINI_MODEL LLM_PERSONA prompt = Ok None ->
      result_of (call_gemini_api g w prompt)
      = Returned (py "Gemini API Call Failed. Exception: "
                  ++ slice_to 100 (py "'NoneType' object has no attribute 'strip'")
                  ++ py "...")).
Proof.
  split; [apply call_gemini_api_returns|]. split.
  - intros e Hk He. rewrite (@call_gemini_api_key g w prompt Hk), He.
    repeat split.
    + unfold slice_to. apply firstn_le_length.
    + exists (skipn 100 (exn_str e)). unfold slice_to.
      symmetry. apply firstn_skipn.
    + cbn. auto.
  - intros Hk He. rewrite (@call_gemini_api_key g w prompt Hk), He. reflexivity.
Qed.

Lemma call_gemini_api_never_raises_witness :
  List.length (exn_str Sample.timeout_error) = 114
  /\ result_of (call_gemini_api (load_globals Sample.getenv_full Sample.argv_both)
                  Sample.world_gemini_down (py "any prompt"))
     = Returned (py "Gemini API Call Failed. Exception: the request to the service timed out after waiting for a response from the remote end of the connect...").
Proof.
  split; [reflexivity|].
  destruct (call_gemini_api_never_raises
              (load_globals Sample.getenv_full Sample.argv_both)
              Sample.world_gemini_down (py "any prompt")) as (_ & Hraise & _).
  destruct (Hraise Sample.timeout_error eq_refl eq_refl) as (Hrun & _).
  rewrite Hrun. reflexivity.
Defined.

(** C8: for every review text, when the token, the repository name or
    the pull-request number is missing, [post_review] calls nothing of
    PyGithub: it prints an error line, prints the whole review, and
    returns. *)
Theorem incomplete_identity_logs_review (g : Globals) (w : World) (review_text : pystr)
    (skip_header : bool) :
  truthy (github_token g) = false \/ truthy (repo_full_name g) = false
  \/ truthy_int (pr_number g) = false ->
  post_review g w review_text skip_header
  = ([EvPrint (py "Error: Missing GitHub token or PR metadata. Cannot post review.");
      EvPrint (py "Generated Review:" ++ nl ++ review_text)],
     Returned tt)
  /\ existsb service_event (trace (post_review g w review_text skip_header)) = false.
Proof.
  intros H.
  assert (Hfalse : truthy (github_token g) && truthy (repo_full_name g)
                   && truthy_int (pr_number g) = false).
  { destruct H as [H|[H|H]]; rewrite H.
    - reflexivity.
    - now rewrite andb_false_r.
    - now rewrite andb_false_r. }
  rewrite (@post_review_unready g w review_text skip_header Hfalse).
  split; reflexivity.
Qed.

Lemma incomplete_identity_logs_review_witness :
  github_token (load_globals Sample.getenv_no_token Sample.argv_both) = None
  /\ post_review (load_globals Sample.getenv_no_token Sample.argv_both)
       Sample.world_ok (py "LGTM") false
     = (unposted_log (py "LGTM"), Returned tt).
Proof.
  split; [reflexivity|].
  exact (proj1 (@incomplete_identity_logs_review
                  (load_globals Sample.getenv_no_token Sample.argv_both)
                  Sample.world_ok (py "LGTM") false (or_introl eq_refl))).
Defined.

(** C9, as stated, fails in its second half: past the startup check
    an error ends the run with status 1 on two paths where nothing was
    posted, a report that decodes to a list and a diff file that cannot
    be opened. *)
Lemma fatal_without_posting_counterexample :
  env_ready (load_globals Sample.getenv_full Sample.argv_both)
  /\ result_of (main (load_globals Sample.getenv_full Sample.argv_both)
                  Sample.world_report_list)
     = Uncaught (Exn (py "AttributeError") (py "'list' object has no attribute 'get'"))
  /\ exit_status (result_of (main (load_globals Sample.getenv_full Sample.argv_both)
                               Sample.world_report_list)) = 1%Z
  /\ existsb posting_event (trace (main (load_globals Sample.getenv_full Sample.argv_both)
                                     Sample.world_report_list)) = false
  /\ result_of (main (load_globals Sample.getenv_full Sample.argv_both)
                  Sample.world_diff_unreadable)
     = Uncaught Sample.permission_error
  /\ exit_status (result_of (main (load_globals Sample.getenv_full Sample.argv_both)
                               Sample.world_diff_unreadable)) = 1%Z
  /\ existsb posting_event (trace (main (load_globals Sample.getenv_full Sample.argv_both)
                                     Sample.world_diff_unreadable)) = false.
Proof.
  repeat split.
Qed.

(** C9, amended: when a PyGithub call of [post_review] raises [e], the
    function prints the error, then the whole unposted review, and ends
    the process with [sys.exit(1)].  Past the startup check a run ends
    with a status other than 0 in two ways only.  Either it ends with
    [sys.exit(1)] inside the one call of [post_review] it makes, a
    PyGithub call of which raised: on the fixed message of a short
    diff, or on the review [call_gemini_api] returned for the prompt of
    this run.  Or an exception reaches the top, raised by the reading
    of the diff or by [create_mega_prompt] on a report of the wrong
    shape, before any service was called.  A failure of the generation
    service ends no run. *)
Theorem posting_failure_is_fatal (g : Globals) (w : World) :
  (forall review_text skip_header e,
      identity_ready g ->
      posting_failure g w review_text skip_header = Some e ->
      exists calls,
        post_review g w review_text skip_header
        = (calls ++ [EvPrint (py "Error posting comment to GitHub: " ++ exn_str e);
                     EvPrint (py "Generated Review (not posted):" ++ nl ++ review_text)],
           Exited 1)
        /\ forallb posting_event calls = true)
  /\ (env_ready g ->
      match result_of (main g w) with
      | Returned _ => True
      | Exited code =>
          code = 0%Z
          \/ (code = 1%Z
              /\ exists review_text skip_header e before,
                   posting_failure g w review_text skip_header = Some e
                   /\ trace (main g w)
                      = before ++ trace (post_review g w review_text skip_header)
                   /\ existsb posting_event before = false
                   /\ ((skip_header = true /\ review_text = trivial_diff_review)
                       \/ (skip_header = false
                           /\ exists d f prompt,
                                result_of (read_inputs g w) = Returned (d, f)
                                /\ create_mega_prompt d f = Ok prompt
                                /\ result_of (call_gemini_api g w prompt)
                                   = Returned review_text)))
      | Uncaught e =>
          existsb service_event (trace (main g w)) = false
          /\ (result_of (read_diff g w) = Uncaught e
              \/ exists d f,
                   result_of (read_inputs g w) = Returned (d, f)
                   /\ create_mega_prompt d f = Raised e)
      end).
Proof.
  split.
  - intros review_text skip_header e Hid Hfail.
    exact (@post_review_failure_trace g w review_text skip_header e Hid Hfail).
  - intros Hready. pose proof (main_cases w Hready) as Hshape.
    remember (main g w) as run eqn:Hrun. clear Hrun.
    assert (Hdiff : existsb service_event (trace (read_diff g w)) = false)
      by apply (proj1 (read_diff_trace g w)).
    assert (Hsem : existsb service_event (trace (read_semgrep g w)) = false)
      by apply read_semgrep_trace.
    destruct Hshape as [tr e Hd|tr d Hd Hlen Hpost|tr d e Hd Hlen Hpost
                       |tr d trs f e Hd Hlen Hs Hp
                       |tr d trs f prompt trc review Hd Hlen Hs Hp Hc Hpost
                       |tr d trs f prompt trc review e Hd Hlen Hs Hp Hc Hpost];
      cbn [trace result_of fst snd]; rewrite ?Hd, ?Hs in *; cbn [trace result_of fst snd] in *.
    + split; [exact Hdiff | left; reflexivity].
    + left. reflexivity.
    + right. split; [reflexivity|].
      exists trivial_diff_review, true, e, tr. repeat split; try assumption.
      * exact (@no_service_no_posting tr Hdiff).
      * left. split; reflexivity.
    + split.
      * rewrite existsb_app, Hdiff, Hsem. reflexivity.
      * right. exists d, f. split; [|exact Hp].
        rewrite (@read_inputs_long g w tr d trs f Hd Hlen Hs). reflexivity.
    + exact I.
    + right. split; [reflexivity|].
      exists review, false, e, (tr ++ trs ++ trc). repeat split; try assumption.
      * rewrite <- !app_assoc. reflexivity.
      * rewrite !existsb_app.
        rewrite (@no_service_no_posting tr Hdiff).
        rewrite (@no_service_no_posting trs Hsem).
        pose proof (call_gemini_api_no_posting g w prompt) as Hq. rewrite Hc in Hq.
        exact Hq.
      * right. split; [reflexivity|]. exists d, f, prompt.
        rewrite (@read_inputs_long g w tr d trs f Hd Hlen Hs), Hc. repeat split. exact Hp.
Qed.

Lemma posting_failure_is_fatal_witness :
  result_of (post_review (load_globals Sample.getenv_full Sample.argv_both)
               Sample.world_post_fails (py "LGTM") false) = Exited 1
  /\ exists review_text skip_header e before,
       posting_failure (load_globals Sample.getenv_full Sample.argv_both)
         Sample.world_post_fails review_text skip_header = Some e
       /\ trace (main (load_globals Sample.getenv_full Sample.argv_both)
                   Sample.world_post_fails)
          = before ++ trace (post_review (load_globals Sample.getenv_full Sample.argv_both)
                               Sample.world_post_fails review_text skip_header)
       /\ existsb posting_event before = false.
Proof.
  destruct (posting_failure_is_fatal (load_globals Sample.getenv_full Sample.argv_both)
              Sample.world_post_fails) as [Hpost Hmain].
  destruct (Hpost (py "LGTM") false (Exn (py "GithubException") (py "403 Forbidden")))
    as (calls & Hrun & _).
  - repeat split.
  - reflexivity.
  - split; [rewrite Hrun; reflexivity|].
    destruct (Hmain (conj eq_refl (conj eq_refl (conj eq_refl eq_refl))))
      as [Hzero|(_ & review_text & skip_header & e & before & Hfail & Htrace & Hquiet & _)].
    + discriminate Hzero.
    + exists review_text, skip_header, e, before. repeat split; assumption.
Defined.

(** C1, as stated, fails: with an absent diff (the empty text) and a
    pull request GitHub refuses to comment on, the run ends with exit
    code 1, not 0. *)
Lemma short_diff_exit_code_counterexample :
  env_ready (load_globals Sample.getenv_full Sample.argv_none)
  /\ read_diff (load_globals Sample.getenv_full Sample.argv_none) Sample.world_post_fails
     = ([], Returned [])
  /\ List.length (@nil N) < 10
  /\ result_of (main (load_globals Sample.getenv_full Sample.argv_none)
                  Sample.world_post_fails) = Exited 1
  /\ exit_status (result_of (main (load_globals Sample.getenv_full Sample.argv_none)
                               Sample.world_post_fails)) = 1%Z.
Proof.
  repeat split. cbn. lia.
Qed.

(** C1, amended: for every diff text shorter than 10 characters (the
    empty text of an absent diff included), the run past the startup
    check is the reading of the diff followed by [post_review] on the
    fixed "no significant change" message with [skip_header=True]:
    nothing is asked of Gemini, no other comment is sent, and the
    process ends with exit code 0 when no PyGithub call raises, with
    exit code 1 when one does. *)
Theorem short_diff_short_circuits (g : Globals) (w : World) (d : pystr) :
  env_ready g ->
  result_of (read_diff g w) = Returned d -> List.length d < 10 ->
  main g w
  = (trace (read_diff g w) ++ trace (post_review g w trivial_diff_review true),
     Exited match posting_failure g w trivial_diff_review true with
            | None => 0%Z
            | Some _ => 1%Z
            end)
  /\ existsb generation_event (trace (main g w)) = false
  /\ (forall repo number body,
        In (EvCreateIssueComment repo number body) (trace (main g w)) ->
        body = trivial_diff_review)
  /\ (posting_failure g w trivial_diff_review true = None ->
      result_of (main g w) = Exited 0
      /\ (get_repo w (github_token g) (repo_full_name g) = None ->
          get_pull w (repo_full_name g) (pr_number g) = None ->
          In (EvCreateIssueComment (repo_full_name g) (pr_number g) trivial_diff_review)
             (trace (main g w))))
  /\ (truthy (diff_path g) = false -> d = [])
  /\ (forall path, diff_path g = Some path -> path_exists w path = false -> d = []).
Proof.
  intros Hready Hd Hlen. pose proof (env_ready_identity Hready) as Hid.
  assert (Habsent : truthy (diff_path g) = false -> d = []).
  { intros Hp. rewrite (read_diff_absent g w Hp) in Hd. injection Hd as <-. reflexivity. }
  assert (Hnofile : forall path, diff_path g = Some path ->
                                 path_exists w path = false -> d = []).
  { intros path Hp Hex. rewrite (@read_diff_not_found g w path Hp Hex) in Hd.
    injection Hd as <-. reflexivity. }
  pose proof (proc_eta (read_diff g w)) as Hdiff. rewrite Hd in Hdiff.
  pose proof (read_inputs_short g w Hdiff Hlen) as Hri.
  rewrite (post_review_result w trivial_diff_review true Hid) in Hri.
  assert (Hrun : main g w
                 = (trace (read_diff g w) ++ trace (post_review g w trivial_diff_review true),
                    Exited match posting_failure g w trivial_diff_review true with
                           | None => 0%Z
                           | Some _ => 1%Z
                           end)).
  { rewrite (main_ready w Hready).
    destruct (posting_failure g w trivial_diff_review true);
      rewrite (bind_exited _ Hri); reflexivity. }
  rewrite Hrun. cbn [trace result_of fst snd]. repeat split.
  - rewrite existsb_app, (post_review_no_generation g w trivial_diff_review true).
    rewrite (@existsb_weaken _ generation_event service_event _ generation_is_service
               (proj1 (read_diff_trace g w))).
    reflexivity.
  - intros repo number body Hev. apply in_app_or in Hev as [Hev|Hev].
    + pose proof (@existsb_false_in _ service_event _ _
                    (proj1 (read_diff_trace g w)) Hev) as Hf.
      discriminate.
    + apply post_review_comment in Hev as (_ & _ & ->). reflexivity.
  - match goal with Hnone : posting_failure _ _ _ _ = None |- _ => rewrite Hnone end.
    reflexivity.
  - intros Hrepo Hpull. apply in_or_app. right.
    exact (@post_review_sends g w trivial_diff_review true Hid Hrepo Hpull).
  - exact Habsent.
  - exact Hnofile.
Qed.

Lemma short_diff_short_circuits_witness :
  main (load_globals Sample.getenv_full Sample.argv_none) Sample.world_ok
  = ([EvGetRepo (Some (py "t-123")) (Some (py "owner/repo"));
      EvGetPull (Some (py "owner/repo")) (Some 42%Z);
      EvCreateIssueComment (Some (py "owner/repo")) (Some 42%Z) trivial_diff_review;
      EvPrint (py "Successfully posted consolidated review to Pull Request.")],
     Exited 0).
Proof.
  destruct (@short_diff_short_circuits
              (load_globals Sample.getenv_full Sample.argv_none) Sample.world_ok []
              (conj eq_refl (conj eq_refl (conj eq_refl eq_refl))) eq_refl)
    as (Hrun & _).
  - cbn. lia.
  - rewrite Hrun. reflexivity.
Defined.

(** C3: the prompt is a function of the diff text and of the report as
    a JSON value.  Two reports that are the same value, the keys of
    their dicts inserted in any two orders, give the same result with
    the same diff: the same prompt, byte for byte, or the same
    exception.  So take two runs, in any two states of the globals and
    of the world, that loaded the same diff and the same report: the
    prompts they send to Gemini are the same string,
    [create_mega_prompt] of these inputs. *)
Theorem prompt_depends_on_inputs_only (d : pystr) (f1 f2 : json) :
  unique_keys f1 = true -> same_value f1 f2 = true ->
  create_mega_prompt d f1 = create_mega_prompt d f2
  /\ forall (g1 g2 : Globals) (w1 w2 : World) (k1 k2 : option pystr)
            (m1 m2 s1 s2 p1 p2 : pystr),
       result_of (read_inputs g1 w1) = Returned (d, f1) ->
       result_of (read_inputs g2 w2) = Returned (d, f2) ->
       In (EvGenerateContent k1 m1 s1 p1) (trace (main g1 w1)) ->
       In (EvGenerateContent k2 m2 s2 p2) (trace (main g2 w2)) ->
       create_mega_prompt d f1 = Ok p1 /\ p1 = p2.
Proof.
  intros Hu Hs.
  pose proof (@same_value_prompt d f1 f2 Hu Hs) as Heq.
  split; [exact Heq|].
  intros g1 g2 w1 w2 k1 k2 m1 m2 s1 s2 p1 p2 Hin1 Hin2 Hev1 Hev2.
  pose proof (@main_generation_request g1 w1 d f1 k1 m1 s1 p1 Hin1 Hev1) as H1.
  pose proof (@main_generation_request g2 w2 d f2 k2 m2 s2 p2 Hin2 Hev2) as H2.
  split; [exact H1|]. congruence.
Qed.

(** Two runs on the same report, its keys written in two orders. *)
Lemma prompt_depends_on_inputs_only_witness :
  create_mega_prompt Sample.diff_text Sample.report
  = create_mega_prompt Sample.diff_text Sample.report_reordered
  /\ create_mega_prompt Sample.diff_text Sample.report
     = Ok (content_template Sample.diff_text 1
             (dumps (JList [JDict [(py "line", JInt 3); (py "path", JStr (py "a.py"));
                                   (py "score", JFloat (Finite (py "0.5")))]]))).
Proof.
  destruct (@prompt_depends_on_inputs_only Sample.diff_text Sample.report
              Sample.report_reordered eq_refl eq_refl) as [Heq Hruns].
  split; [exact Heq|].
  refine (proj1 (Hruns (load_globals Sample.getenv_full Sample.argv_both)
                   (load_globals Sample.getenv_other Sample.argv_both)
                   Sample.world_report Sample.world_report_reordered
                   _ _ _ _ _ _ _ _ eq_refl eq_refl _ _)).
  - cbn. do 4 right. left. reflexivity.
  - cbn. do 4 right. left. reflexivity.
Defined.

(** C4: with the four variables set, a diff worth a review and a report
    whose "results" list has exactly one entry, the prompt is built and
    has the line "Total Findings: 1".  [call_gemini_api] returns a text
    (the answer of Gemini, stripped, when Gemini gave one), and the one
    comment [main] sends, with [skip_header=False], is
    "## Automated Gemini Code Review for PR #<N>\n\n" followed by that
    text. *)
Theorem one_finding_review_has_header (g : Globals) (w : World) (d : pystr)
    (items : list (pystr * json)) (finding : json) (n : Z) :
  env_ready g -> pr_number g = Some n ->
  result_of (read_inputs g w) = Returned (d, JDict items) ->
  lookup (py "results") items = Some (JList [finding]) ->
  exists prompt review,
    create_mega_prompt d (JDict items) = Ok prompt
    /\ has_line prompt (py "Total Findings: 1")
    /\ result_of (call_gemini_api g w prompt) = Returned review
    /\ (forall text,
          generate_content w (api_key g) GEMINI_MODEL LLM_PERSONA prompt = Ok (Some text) ->
          review = strip text)
    /\ (forall repo number body,
          In (EvCreateIssueComment repo number body) (trace (main g w)) ->
          body = py "## Automated Gemini Code Review for PR #" ++ str_of_int n
                 ++ nl ++ nl ++ review)
    /\ (get_repo w (github_token g) (repo_full_name g) = None ->
        get_pull w (repo_full_name g) (pr_number g) = None ->
        In (EvCreateIssueComment (repo_full_name g) (Some n)
              (py "## Automated Gemini Code Review for PR #" ++ str_of_int n
               ++ nl ++ nl ++ review))
           (trace (main g w))).
Proof.
  intros Hready Hn Hin Hres.
  pose proof (env_ready_identity Hready) as Hid.
  pose proof (@create_mega_prompt_results d items (JList [finding]) 1 Hres eq_refl) as Hp.
  destruct (@main_reviewed g w d (JDict items) _ Hready Hin Hp)
    as (trc & review & Hc & Hrun).
  assert (Hbody : final_comment g review false
                  = py "## Automated Gemini Code Review for PR #" ++ str_of_int n
                    ++ nl ++ nl ++ review).
  { unfold final_comment, review_header. rewrite Hn. cbn [format_int].
    rewrite <- !app_assoc. reflexivity. }
  eexists. exists review. split; [exact Hp|]. split.
  { apply (content_template_count_line d 1). }
  split; [rewrite Hc; reflexivity|]. split.
  { intros text Htext. destruct Hready as (Hk & _).
    pose proof (@call_gemini_api_key g w
                  (content_template d 1 (dumps (JList [finding]))) Hk) as Hcall.
    rewrite Htext, Hc in Hcall. injection Hcall as _ ->. reflexivity. }
  rewrite Hrun. cbn [trace fst]. split.
  - intros repo number body Hev.
    apply in_app_or in Hev as [Hev|Hev].
    { pose proof (@existsb_false_in _ service_event _ _
                    (@read_inputs_returned_trace g w d (JDict items) Hin) Hev) as Hf.
      discriminate. }
    apply in_app_or in Hev as [Hev|Hev].
    { pose proof (call_gemini_api_no_posting g w
                    (content_template d 1 (dumps (JList [finding])))) as Hq.
      rewrite Hc in Hq.
      pose proof (@existsb_false_in _ posting_event _ _ Hq Hev) as Hf. discriminate. }
    apply in_app_or in Hev as [Hev|Hev].
    + apply post_review_comment in Hev as (_ & _ & ->). exact Hbody.
    + destruct (posting_failure g w review false); [destruct Hev|].
      cbn in Hev. destruct Hev as [Hev|[Hev|[]]]; discriminate.
  - intros Hrepo Hpull. rewrite <- Hbody, <- Hn.
    apply in_or_app. right. apply in_or_app. right. apply in_or_app. left.
    exact (@post_review_sends g w review false Hid Hrepo Hpull).
Qed.

Lemma one_finding_review_has_header_witness :
  In (EvCreateIssueComment (Some (py "owner/repo")) (Some 42%Z)
        (py "## Automated Gemini Code Review for PR #42" ++ nl ++ nl ++ py "OK"))
     (trace (main (load_globals Sample.getenv_full Sample.argv_both) Sample.world_ok)).
Proof.
  destruct (@one_finding_review_has_header
              (load_globals Sample.getenv_full Sample.argv_both) Sample.world_ok
              Sample.diff_text
              [(py "results", JList [JDict [(py "rule", JStr (py "x"))]])]
              (JDict [(py "rule", JStr (py "x"))]) 42
              (conj eq_refl (conj eq_refl (conj eq_refl eq_refl)))
              eq_refl eq_refl eq_refl)
    as (prompt & review & Hp & _ & Hc & Htext & _ & Hsent).
  injection Hp as <-.
  rewrite (Htext (py "OK") eq_refl) in Hsent.
  exact (Hsent eq_refl eq_refl).
Defined.

(** C5: when the report exists and does not decode, [read_inputs]
    prints a warning and returns the record [{"error": str(e)}] in its
    place; the prompt is built from it with the line
    "Total Findings: 0", the request goes to Gemini, and no exception
    ends the run. *)
Theorem malformed_report_is_not_fatal (g : Globals) (w : World) (d path text : pystr)
    (e : exn) :
  env_ready g ->
  result_of (read_diff g w) = Returned d -> 10 <= List.length d ->
  semgrep_path g = Some path -> path <> [] -> path_exists w path = true ->
  read_file w path = Ok text -> json_loads w text = Raised e ->
  read_semgrep g w
  = ([EvPathExists path; EvReadFile path;
      EvPrint (py "Warning: Could not parse Semgrep JSON: " ++ exn_str e)],
     Returned (JDict [(py "error", JStr (exn_str e))]))
  /\ result_of (read_inputs g w) = Returned (d, JDict [(py "error", JStr (exn_str e))])
  /\ (exists prompt,
        create_mega_prompt d (JDict [(py "error", JStr (exn_str e))]) = Ok prompt
        /\ has_line prompt (py "Total Findings: 0")
        /\ In (EvGenerateContent (api_key g) GEMINI_MODEL LLM_PERSONA prompt)
              (trace (main g w)))
  /\ In (EvPrint (py "Warning: Could not parse Semgrep JSON: " ++ exn_str e))
        (trace (main g w))
  /\ (forall e', result_of (main g w) <> Uncaught e').
Proof.
  intros Hready Hd Hlen Hpath Hne Hex Hrd Hjs.
  pose proof (@read_semgrep_malformed g w path text e Hpath Hne Hex Hrd Hjs) as Hs.
  pose proof (proc_eta (read_diff g w)) as Hdiff. rewrite Hd in Hdiff.
  pose proof (@read_inputs_long g w _ d _ _ Hdiff Hlen Hs) as Hri.
  assert (Hin : result_of (read_inputs g w)
                = Returned (d, JDict [(py "error", JStr (exn_str e))]))
    by (rewrite Hri; reflexivity).
  assert (Hp : create_mega_prompt d (JDict [(py "error", JStr (exn_str e))])
               = Ok (content_template d 0 (dumps (JList [])))) by reflexivity.
  destruct (@main_reviewed g w d _ _ Hready Hin Hp) as (trc & review & Hc & Hrun).
  split; [exact Hs|]. split; [exact Hin|]. split.
  - eexists. split; [exact Hp|]. split.
    + apply (content_template_count_line d 0).
    + rewrite Hrun. cbn [trace fst].
      apply in_or_app. right. apply in_or_app. left.
      destruct Hready as (Hk & _).
      pose proof (@call_gemini_api_requests g w
                    (content_template d 0 (dumps (JList []))) Hk) as Hreq.
      rewrite Hc in Hreq. exact Hreq.
  - split.
    + rewrite Hrun, Hri. cbn [trace fst].
      apply in_or_app. left. apply in_or_app. right. cbn. auto.
    + intros e'. rewrite Hrun. cbn [result_of snd].
      destruct (posting_failure g w review false); discriminate.
Qed.

Lemma malformed_report_is_not_fatal_witness :
  result_of (read_inputs (load_globals Sample.getenv_full Sample.argv_both)
               Sample.world_bad_json)
  = Returned (Sample.diff_text,
              JDict [(py "error", JStr (py "Expecting value: line 1 column 2 (char 1)"))]).
Proof.
  refine (proj1 (proj2 (@malformed_report_is_not_fatal
                          (load_globals Sample.getenv_full Sample.argv_both)
                          Sample.world_bad_json Sample.diff_text (py "semgrep.json")
                          (py "{...}")
                          (Exn (py "JSONDecodeError")
                               (py "Expecting value: line 1 column 2 (char 1)"))
                          (conj eq_refl (conj eq_refl (conj eq_refl eq_refl)))
                          eq_refl _ eq_refl _ eq_refl eq_refl eq_refl))).
  - vm_compute. lia.
  - discriminate.
Defined.

(** ** Further properties of the script *)

Lemma env_ready_bool (g : Globals) :
  env_ready g
  <-> truthy (api_key g) && truthy (github_token g)
      && truthy (repo_full_name g) && truthy_int (pr_number g) = true.
Proof.
  unfold env_ready. rewrite !andb_true_iff. tauto.
Qed.

Lemma identity_ready_bool (g : Globals) :
  identity_ready g
  <-> truthy (github_token g) && truthy (repo_full_name g)
      && truthy_int (pr_number g) = true.
Proof.
  unfold identity_ready. rewrite !andb_true_iff. tauto.
Qed.

Lemma post_review_failure_length (g : Globals) (w : World) review skip e :
  identity_ready g -> posting_failure g w review skip = Some e ->
  2 <= List.length (trace (post_review g w review skip)).
Proof.
  intros Hid Hf.
  destruct (@post_review_failure_trace g w review skip e Hid Hf) as (calls & Hrun & _).
  rewrite Hrun. cbn [trace fst]. rewrite length_app. cbn. lia.
Qed.

(** X1: [main] stops at the startup check exactly when one of the four
    values is false (unset, empty, or a pull-request number that is
    [None] or 0): then, and only then, the whole run is the one
    "CRITICAL ERROR" line followed by [sys.exit(1)]. *)
Theorem startup_check_fails_iff_not_ready (g : Globals) (w : World) :
  main g w = ([EvPrint (critical_error (missing_names g))], Exited 1)
  <-> ~ env_ready g.
Proof.
  split.
  - intros Hrun Hready.
    pose proof (env_ready_identity Hready) as Hid.
    pose proof (main_cases w Hready) as Hshape. rewrite Hrun in Hshape.
    inversion Hshape as [tr e Hd|tr d Hd Hlen Hpost|tr d e Hd Hlen Hpost Htr
                        |tr d trs f e Hd Hlen Hs Hp
                        |tr d trs f prompt trc review Hd Hlen Hs Hp Hc Hpost
                        |tr d trs f prompt trc review e Hd Hlen Hs Hp Hc Hpost Htr].
    + pose proof (post_review_failure_length w trivial_diff_review true Hid Hpost) as Hl.
      apply (f_equal (@List.length event)) in Htr.
      rewrite length_app in Htr. cbn in Htr. lia.
    + pose proof (post_review_failure_length w review false Hid Hpost) as Hl.
      apply (f_equal (@List.length event)) in Htr.
      rewrite !length_app in Htr. cbn in Htr. lia.
  - intros Hnot. apply main_unready.
    destruct (truthy (api_key g) && truthy (github_token g)
              && truthy (repo_full_name g) && truthy_int (pr_number g)) eqn:Hb;
      [|reflexivity].
    destruct Hnot. apply env_ready_bool. exact Hb.
Qed.

(** X2: the names the startup check prints are the false credentials
    and PR_NUMBER when it is [None], and nothing else: an empty
    credential is named, a pull-request number 0 is not.  They come in
    the order GEMINI_API_KEY, GITHUB_TOKEN, REPO_FULL_NAME, PR_NUMBER,
    each at most once. *)
Theorem missing_names_are_the_false_ones (g : Globals) :
  (In (py "GEMINI_API_KEY") (missing_names g) <-> truthy (api_key g) = false)
  /\ (In (py "GITHUB_TOKEN") (missing_names g) <-> truthy (github_token g) = false)
  /\ (In (py "REPO_FULL_NAME") (missing_names g) <-> truthy (repo_full_name g) = false)
  /\ (In (py "PR_NUMBER") (missing_names g) <-> pr_number g = None)
  /\ (exists keep : pystr -> bool, missing_names g = filter keep required_names).
Proof.
  unfold missing_names.
  destruct (truthy (api_key g)), (truthy (github_token g)),
    (truthy (repo_full_name g)), (pr_number g) as [n|];
    cbn [negb app];
    (repeat split;
     try (intros Hin; vm_compute in Hin; intuition discriminate);
     try discriminate; try (intros _; vm_compute; tauto));
    [ exists (fun _ => false)
    | exists (fun s => PyStr.eqb s (py "PR_NUMBER"))
    | exists (fun s => PyStr.eqb s (py "REPO_FULL_NAME"))
    | exists (fun s => PyStr.eqb s (py "REPO_FULL_NAME") || PyStr.eqb s (py "PR_NUMBER"))
    | exists (fun s => PyStr.eqb s (py "GITHUB_TOKEN"))
    | exists (fun s => PyStr.eqb s (py "GITHUB_TOKEN") || PyStr.eqb s (py "PR_NUMBER"))
    | exists (fun s => PyStr.eqb s (py "GITHUB_TOKEN") || PyStr.eqb s (py "REPO_FULL_NAME"))
    | exists (fun s => negb (PyStr.eqb s (py "GEMINI_API_KEY")))
    | exists (fun s => PyStr.eqb s (py "GEMINI_API_KEY"))
    | exists (fun s => PyStr.eqb s (py "GEMINI_API_KEY") || PyStr.eqb s (py "PR_NUMBER"))
    | exists (fun s => PyStr.eqb s (py "GEMINI_API_KEY") || PyStr.eqb s (py "REPO_FULL_NAME"))
    | exists (fun s => negb (PyStr.eqb s (py "GITHUB_TOKEN")))
    | exists (fun s => PyStr.eqb s (py "GEMINI_API_KEY") || PyStr.eqb s (py "GITHUB_TOKEN"))
    | exists (fun s => negb (PyStr.eqb s (py "REPO_FULL_NAME")))
    | exists (fun s => negb (PyStr.eqb s (py "PR_NUMBER")))
    | exists (fun _ => true) ];
    reflexivity.
Qed.

(** X3: the threshold of [read_inputs] is strict.  Once the diff is
    read, the function returns (with that diff) exactly when the diff
    has 10 characters or more; below 10 it ends the process, and the
    report is not looked for. *)
Theorem read_inputs_returns_iff_long (g : Globals) (w : World) (d : pystr) :
  result_of (read_diff g w) = Returned d ->
  ((exists f, result_of (read_inputs g w) = Returned (d, f)) <-> 10 <= List.length d)
  /\ (List.length d < 10 ->
      (exists code, result_of (read_inputs g w) = Exited code)
      /\ trace (read_inputs g w)
         = trace (read_diff g w) ++ trace (post_review g w trivial_diff_review true)).
Proof.
  intros Hd. pose proof (proc_eta (read_diff g w)) as Hdiff. rewrite Hd in Hdiff.
  assert (Hshort : List.length d < 10 ->
                   (exists code, result_of (read_inputs g w) = Exited code)
                   /\ trace (read_inputs g w)
                      = trace (read_diff g w)
                        ++ trace (post_review g w trivial_diff_review true)).
  { intros Hlen. rewrite (read_inputs_short g w Hdiff Hlen). cbn [trace result_of fst snd].
    split; [|reflexivity].
    destruct (truthy (github_token g) && truthy (repo_full_name g)
              && truthy_int (pr_number g)) eqn:Hb.
    - apply identity_ready_bool in Hb.
      rewrite (post_review_result w trivial_diff_review true Hb).
      destruct (posting_failure g w trivial_diff_review true); eexists; reflexivity.
    - rewrite (@post_review_unready g w trivial_diff_review true Hb).
      eexists; reflexivity. }
  split; [|exact Hshort]. split.
  - intros [f Hf]. destruct (Nat.ltb_spec (List.length d) 10) as [Hlen|Hlen]; [|exact Hlen].
    destruct (Hshort Hlen) as [[code Hcode] _]. congruence.
  - intros Hlen. destruct (read_semgrep_returns g w) as [f Hf].
    destruct (read_semgrep g w) as [trs o] eqn:Hs. cbn in Hf. subst o.
    exists f. rewrite (read_inputs_long g w Hdiff Hlen Hs). reflexivity.
Qed.

Lemma read_inputs_returns_iff_long_witness :
  result_of (read_inputs (load_globals Sample.getenv_full Sample.argv_none) Sample.world_ok)
  = Exited 0
  /\ exists f,
       result_of (read_inputs (load_globals Sample.getenv_full Sample.argv_both)
                    Sample.world_ok) = Returned (Sample.diff_text, f).
Proof.
  split; [reflexivity|].
  apply (proj1 (@read_inputs_returns_iff_long
                  (load_globals Sample.getenv_full Sample.argv_both) Sample.world_ok
                  Sample.diff_text eq_refl)).
  vm_compute. lia.
Defined.

(** X4: [read_inputs] on a short diff when the token, the repository
    name or the pull-request number is missing: nothing is posted, the
    fixed review goes to the log, and the process still ends with exit
    code 0. *)
Theorem short_diff_without_identity (g : Globals) (w : World) (d : pystr) :
  result_of (read_diff g w) = Returned d -> List.length d < 10 ->
  ~ identity_ready g ->
  read_inputs g w
  = (trace (read_diff g w)
     ++ [EvPrint (py "Error: Missing GitHub token or PR metadata. Cannot post review.");
         EvPrint (py "Generated Review:" ++ nl ++ trivial_diff_review)],
     Exited 0)
  /\ existsb service_event (trace (read_inputs g w)) = false.
Proof.
  intros Hd Hlen Hnot.
  pose proof (proc_eta (read_diff g w)) as Hdiff. rewrite Hd in Hdiff.
  assert (Hb : truthy (github_token g) && truthy (repo_full_name g)
               && truthy_int (pr_number g) = false).
  { destruct (truthy (github_token g) && truthy (repo_full_name g)
              && truthy_int (pr_number g)) eqn:Hb; [|reflexivity].
    destruct Hnot. apply identity_ready_bool. exact Hb. }
  rewrite (read_inputs_short g w Hdiff Hlen).
  rewrite (@post_review_unready g w trivial_diff_review true Hb).
  cbn [trace result_of fst snd]. split; [reflexivity|].
  rewrite existsb_app, (proj1 (read_diff_trace g w)). reflexivity.
Qed.

Lemma short_diff_without_identity_witness :
  result_of (read_inputs (load_globals Sample.getenv_no_token Sample.argv_none)
               Sample.world_ok) = Exited 0.
Proof.
  destruct (@short_diff_without_identity
              (load_globals Sample.getenv_no_token Sample.argv_none) Sample.world_ok []
              eq_refl) as [Hrun _].
  - cbn. lia.
  - intros (Ht & _). discriminate.
  - rewrite Hrun. reflexivity.
Defined.

(** X5: a diff file that exists and cannot be opened or decoded is not
    treated as an empty diff: the exception of [open] or [read] leaves
    [main] uncaught, after the two file events and before any service
    is called, so nothing is posted and the process status is 1. *)
Theorem unreadable_diff_crashes (g : Globals) (w : World) (path : pystr) (e : exn) :
  env_ready g ->
  diff_path g = Some path -> path <> [] ->
  path_exists w path = true -> read_file w path = Raised e ->
  main g w = ([EvPathExists path; EvReadFile path], Uncaught e)
  /\ exit_status (result_of (main g w)) = 1%Z.
Proof.
  intros Hready Hp Hne Hex Hrd.
  assert (Hd : read_diff g w = ([EvPathExists path; EvReadFile path], Uncaught e)).
  { unfold read_diff. rewrite Hp. destruct path as [|c path]; [contradiction|].
    cbn. rewrite Hex. cbn. rewrite Hrd. reflexivity. }
  assert (Hrun : main g w = ([EvPathExists path; EvReadFile path], Uncaught e)).
  { rewrite (main_ready w Hready).
    apply (bind_uncaught _ (read_inputs_fails g w Hd)). }
  rewrite Hrun. split; reflexivity.
Qed.

Lemma unreadable_diff_crashes_witness :
  main (load_globals Sample.getenv_full Sample.argv_both) Sample.world_diff_unreadable
  = ([EvPathExists (py "pr.diff"); EvReadFile (py "pr.diff")],
     Uncaught Sample.permission_error).
Proof.
  refine (proj1 (@unreadable_diff_crashes
                   (load_globals Sample.getenv_full Sample.argv_both)
                   Sample.world_diff_unreadable (py "pr.diff") Sample.permission_error
                   (conj eq_refl (conj eq_refl (conj eq_refl eq_refl)))
                   eq_refl _ eq_refl eq_refl)).
  discriminate.
Defined.

(** X6: the three ways a report can be missing.  With no path (or an
    empty one) nothing is touched and the report is the empty dict;
    with a path that names nothing, only the existence test is made;
    with a file that cannot be opened, the exception of [open] is
    handled like a decoding error, with a warning and an error record.
    In the first two cases the prompt is the one of a report without
    findings. *)
Theorem missing_report_is_empty (g : Globals) (w : World) :
  (truthy (semgrep_path g) = false -> read_semgrep g w = ([], Returned (JDict [])))
  /\ (forall path,
        semgrep_path g = Some path -> path <> [] -> path_exists w path = false ->
        read_semgrep g w = ([EvPathExists path], Returned (JDict [])))
  /\ (forall path e,
        semgrep_path g = Some path -> path <> [] -> path_exists w path = true ->
        read_file w path = Raised e ->
        read_semgrep g w
        = ([EvPathExists path; EvReadFile path;
            EvPrint (py "Warning: Could not parse Semgrep JSON: " ++ exn_str e)],
           Returned (JDict [(py "error", JStr (exn_str e))])))
  /\ (forall d, create_mega_prompt d (JDict []) = Ok (content_template d 0 (py "[]"))).
Proof.
  repeat split.
  - unfold read_semgrep. destruct (semgrep_path g) as [[|c path]|]; try reflexivity.
    discriminate.
  - intros path Hp Hne Hex. unfold read_semgrep. rewrite Hp.
    destruct path as [|c path]; [contradiction|]. cbn. rewrite Hex. reflexivity.
  - intros path e Hp Hne Hex Hrd. unfold read_semgrep. rewrite Hp.
    destruct path as [|c path]; [contradiction|]. cbn. rewrite Hex. cbn. rewrite Hrd.
    reflexivity.
Qed.

Lemma missing_report_is_empty_witness :
  read_semgrep (load_globals Sample.getenv_full Sample.argv_diff_only) Sample.world_ok
  = ([], Returned (JDict [])).
Proof.
  exact (proj1 (missing_report_is_empty
                  (load_globals Sample.getenv_full Sample.argv_diff_only)
                  Sample.world_ok) eq_refl).
Defined.

(** X7: of a report, [create_mega_prompt] reads the "results" entry
    and nothing else: two dicts with the same "results" give the same
    prompt.  So the message of a decoding error, kept under "error",
    never reaches the prompt: the prompt is the one of an empty
    report. *)
Theorem prompt_reads_only_results (d : pystr) (items1 items2 : list (pystr * json)) :
  lookup (py "results") items1 = lookup (py "results") items2 ->
  create_mega_prompt d (JDict items1) = create_mega_prompt d (JDict items2).
Proof.
  intros H. unfold create_mega_prompt, get. rewrite H. reflexivity.
Qed.

Lemma prompt_reads_only_results_witness :
  create_mega_prompt Sample.diff_text
    (JDict [(py "error", JStr (py "Expecting value: line 1 column 2 (char 1)"))])
  = create_mega_prompt Sample.diff_text (JDict []).
Proof.
  exact (@prompt_reads_only_results Sample.diff_text
           [(py "error", JStr (py "Expecting value: line 1 column 2 (char 1)"))] []
           eq_refl).
Defined.

Lemma create_mega_prompt_accepts_aux (d : pystr) (report : json) :
  (exists prompt, create_mega_prompt d report = Ok prompt) <-> well_shaped report = true.
Proof.
  split.
  - intros [prompt Hp]. unfold create_mega_prompt in Hp.
    destruct report as [| | | | | |items]; try discriminate.
    cbn in *. destruct (lookup (py "results") items) as [findings|]; [|reflexivity].
    destruct findings; try discriminate; reflexivity.
  - intros Hw. unfold create_mega_prompt.
    destruct report as [| | | | | |items]; try discriminate.
    cbn in *. destruct (lookup (py "results") items) as [findings|].
    + destruct findings; try discriminate; eexists; reflexivity.
    + eexists; reflexivity.
Qed.

(** X8: [create_mega_prompt] builds a prompt exactly for the reports
    that are a dict whose "results", when present, is a list, a dict or
    a string.  Any other report (a list at the top, "results": null,
    "results": 3) makes it raise: [AttributeError] when the report has
    no [get], [TypeError] when the findings have no [len]. *)
Theorem create_mega_prompt_accepts (d : pystr) (report : json) :
  ((exists prompt, create_mega_prompt d report = Ok prompt) <-> well_shaped report = true)
  /\ ((forall items, report <> JDict items) ->
      create_mega_prompt d report
      = Raised (Exn (py "AttributeError")
                    (py "'" ++ type_name report ++ py "' object has no attribute 'get'")))
  /\ (forall items findings,
        report = JDict items -> lookup (py "results") items = Some findings ->
        has_len findings = false ->
        create_mega_prompt d report
        = Raised (Exn (py "TypeError")
                      (py "object of type '" ++ type_name findings ++ py "' has no len()"))).
Proof.
  split; [apply create_mega_prompt_accepts_aux|]. split.
  - intros Hnot. destruct report as [| | | | | |items]; try reflexivity.
    destruct (Hnot items eq_refl).
  - intros items findings -> Hl Hlen. unfold create_mega_prompt, get. rewrite Hl.
    destruct findings; try discriminate; reflexivity.
Qed.

(** X9: when the report decodes to a value [create_mega_prompt] does
    not accept, the run that passed the startup check and loaded its
    inputs ends with an uncaught exception right after the files were
    read: no request goes to Gemini, nothing is posted, and the
    process status is 1. *)
Theorem report_of_wrong_shape_crashes (g : Globals) (w : World) (d : pystr) (report : json) :
  env_ready g ->
  result_of (read_inputs g w) = Returned (d, report) ->
  well_shaped report = false ->
  (exists e, main g w = (trace (read_inputs g w), Uncaught e)
             /\ create_mega_prompt d report = Raised e)
  /\ existsb service_event (trace (main g w)) = false
  /\ exit_status (result_of (main g w)) = 1%Z.
Proof.
  intros Hready Hin Hw.
  destruct (create_mega_prompt d report) as [prompt|e] eqn:Hp.
  - assert (Htrue : well_shaped report = true).
    { apply (proj1 (create_mega_prompt_accepts_aux d report)). eauto. }
    congruence.
  - pose proof (@main_prompt_raises g w d report e Hready Hin Hp) as Hrun.
    rewrite Hrun. cbn [trace result_of fst snd exit_status]. repeat split.
    + exists e. split; reflexivity.
    + exact (@read_inputs_returned_trace g w d report Hin).
Qed.

Lemma report_of_wrong_shape_crashes_witness :
  main (load_globals Sample.getenv_full Sample.argv_both) Sample.world_report_list
  = ([EvPathExists (py "pr.diff"); EvReadFile (py "pr.diff");
      EvPathExists (py "semgrep.json"); EvReadFile (py "semgrep.json")],
     Uncaught (Exn (py "AttributeError") (py "'list' object has no attribute 'get'"))).
Proof.
  destruct (@report_of_wrong_shape_crashes
              (load_globals Sample.getenv_full Sample.argv_both) Sample.world_report_list
              Sample.diff_text (JList [JDict [(py "rule", JStr (py "x"))]])
              (conj eq_refl (conj eq_refl (conj eq_refl eq_refl))) eq_refl eq_refl)
    as ((e & Hrun & He) & _).
  rewrite Hrun. injection He as <-. reflexivity.
Defined.

(** X10: a failing call to Gemini does not stop the run.  When the
    call raises [e] and GitHub accepts the comment, the comment is the
    header followed by the fallback string, the fallback is echoed at
    the end of the log, and [main] returns: the process ends with
    status 0. *)
Theorem generation_failure_is_posted (g : Globals) (w : World) (d : pystr) (report : json)
    (prompt : pystr) (e : exn) :
  env_ready g ->
  result_of (read_inputs g w) = Returned (d, report) ->
  create_mega_prompt d report = Ok prompt ->
  generate_content w (api_key g) GEMINI_MODEL LLM_PERSONA prompt = Raised e ->
  posting_failure g w (generation_fallback e) false = None ->
  main g w
  = (trace (read_inputs g w)
     ++ [EvGenerateContent (api_key g) GEMINI_MODEL LLM_PERSONA prompt;
         EvPrint (py "Error during Gemini API call: " ++ exn_str e);
         EvGetRepo (github_token g) (repo_full_name g);
         EvGetPull (repo_full_name g) (pr_number g);
         EvCreateIssueComment (repo_full_name g) (pr_number g)
           (review_header (pr_number g) ++ generation_fallback e);
         EvPrint (py "Successfully posted consolidated review to Pull Request.");
         EvPrint (nl ++ py "--- Final Review Output ---" ++ nl);
         EvPrint (generation_fallback e)],
     Returned tt)
  /\ exit_status (result_of (main g w)) = 0%Z.
Proof.
  intros Hready Hin Hp Hgen Hpost.
  pose proof (env_ready_identity Hready) as Hid.
  destruct (@main_reviewed g w d report prompt Hready Hin Hp) as (trc & review & Hc & Hrun).
  destruct Hready as (Hk & _).
  rewrite (@call_gemini_api_key g w prompt Hk), Hgen in Hc.
  injection Hc as <- <-.
  rewrite Hrun, Hpost. rewrite (@post_review_ready g w (generation_fallback e) false Hid).
  unfold posting_failure in Hpost.
  destruct (get_repo w (github_token g) (repo_full_name g)); [discriminate|].
  destruct (get_pull w (repo_full_name g) (pr_number g)); [discriminate|].
  rewrite Hpost. split; reflexivity.
Qed.

Lemma generation_failure_is_posted_witness :
  result_of (main (load_globals Sample.getenv_full Sample.argv_both)
               Sample.world_gemini_down) = Returned tt.
Proof.
  destruct (@generation_failure_is_posted
              (load_globals Sample.getenv_full Sample.argv_both) Sample.world_gemini_down
              Sample.diff_text Sample.one_finding
              (content_template Sample.diff_text 1
                 (dumps (JList [JDict [(py "rule", JStr (py "x"))]])))
              Sample.timeout_error
              (conj eq_refl (conj eq_refl (conj eq_refl eq_refl)))
              eq_refl eq_refl eq_refl eq_refl) as [Hrun _].
  rewrite Hrun. reflexivity.
Defined.

(** X11: the fallback string is bounded: whatever the exception, it has
    at most 138 characters (35 of prefix, 100 of message, 3 dots), and
    a message of 100 characters or fewer is embedded whole. *)
Theorem generation_fallback_is_bounded (g : Globals) (w : World) (prompt : pystr) (e : exn) :
  truthy (api_key g) = true ->
  generate_content w (api_key g) GEMINI_MODEL LLM_PERSONA prompt = Raised e ->
  exists review,
    result_of (call_gemini_api g w prompt) = Returned review
    /\ List.length review = 38 + Nat.min 100 (List.length (exn_str e))
    /\ List.length review <= 138
    /\ (List.length (exn_str e) <= 100 ->
        review = py "Gemini API Call Failed. Exception: " ++ exn_str e ++ py "...").
Proof.
  intros Hk Hgen. rewrite (@call_gemini_api_key g w prompt Hk), Hgen.
  eexists. split; [reflexivity|].
  assert (Hlen : List.length (generation_fallback e)
                 = 38 + Nat.min 100 (List.length (exn_str e))).
  { unfold generation_fallback, slice_to. rewrite !length_app, length_firstn.
    change (List.length (py "Gemini API Call Failed. Exception: ")) with 35.
    change (List.length (py "...")) with 3. lia. }
  split; [exact Hlen|]. split; [lia|].
  intros Hshort. unfold generation_fallback, slice_to.
  rewrite firstn_all2 by exact Hshort. reflexivity.
Qed.

Lemma generation_fallback_is_bounded_witness :
  exists review,
    result_of (call_gemini_api (load_globals Sample.getenv_full Sample.argv_both)
                 Sample.world_gemini_down (py "any prompt")) = Returned review
    /\ List.length review = 138.
Proof.
  destruct (@generation_fallback_is_bounded
              (load_globals Sample.getenv_full Sample.argv_both) Sample.world_gemini_down
              (py "any prompt") Sample.timeout_error eq_refl eq_refl)
    as (review & Hr & Hlen & _).
  exists review. split; [exact Hr|]. rewrite Hlen. reflexivity.
Defined.

Lemma filter_quiet (A : Type) (P : A -> bool) (l : list A) :
  existsb P l = false -> filter P l = [].
Proof.
  induction l as [|x l IH]; cbn; [reflexivity|].
  intros H. apply orb_false_elim in H as [Hx Hl]. rewrite Hx. exact (IH Hl).
Qed.

Lemma comment_is_posting e : comment_event e = true -> posting_event e = true.
Proof. destruct e; cbn; congruence. Qed.

Lemma comment_is_service e : comment_event e = true -> service_event e = true.
Proof. destruct e; cbn; congruence. Qed.

Lemma call_gemini_api_one_request (g : Globals) (w : World) (prompt : pystr) :
  List.length (filter generation_event (trace (call_gemini_api g w prompt))) <= 1
  /\ filter comment_event (trace (call_gemini_api g w prompt)) = [].
Proof.
  split.
  - destruct (truthy (api_key g)) eqn:Hk.
    + rewrite (@call_gemini_api_key g w prompt Hk).
      destruct (generate_content w (api_key g) GEMINI_MODEL LLM_PERSONA prompt)
        as [[text|]|e]; cbn; lia.
    + rewrite (@call_gemini_api_no_key g w prompt Hk). cbn. lia.
  - apply filter_quiet.
    exact (@existsb_weaken _ comment_event posting_event _ comment_is_posting
             (call_gemini_api_no_posting g w prompt)).
Qed.

Lemma post_review_one_comment (g : Globals) (w : World) review skip :
  List.length (filter comment_event (trace (post_review g w review skip))) <= 1
  /\ filter generation_event (trace (post_review g w review skip)) = [].
Proof.
  split.
  - destruct (truthy (github_token g) && truthy (repo_full_name g)
              && truthy_int (pr_number g)) eqn:Hb.
    + apply identity_ready_bool in Hb. rewrite (@post_review_ready g w review skip Hb).
      destruct (get_repo w (github_token g) (repo_full_name g)); [cbn; lia|].
      destruct (get_pull w (repo_full_name g) (pr_number g)); [cbn; lia|].
      destruct (create_issue_comment w (repo_full_name g) (pr_number g)
                  (final_comment g review skip)); cbn; lia.
    + rewrite (@post_review_unready g w review skip Hb). cbn. lia.
  - apply filter_quiet. apply post_review_no_generation.
Qed.

Lemma read_diff_silent (g : Globals) (w : World) tr o :
  read_diff g w = (tr, o) ->
  filter generation_event tr = [] /\ filter comment_event tr = [].
Proof.
  intros H. pose proof (proj1 (read_diff_trace g w)) as Hq. rewrite H in Hq.
  cbn [trace fst] in Hq. split; apply filter_quiet.
  - exact (@existsb_weaken _ generation_event service_event _ generation_is_service Hq).
  - exact (@existsb_weaken _ comment_event service_event _ comment_is_service Hq).
Qed.

Lemma read_semgrep_silent (g : Globals) (w : World) tr o :
  read_semgrep g w = (tr, o) ->
  filter generation_event tr = [] /\ filter comment_event tr = [].
Proof.
  intros H. pose proof (read_semgrep_trace g w) as Hq. rewrite H in Hq.
  cbn [trace fst] in Hq. split; apply filter_quiet.
  - exact (@existsb_weaken _ generation_event service_event _ generation_is_service Hq).
  - exact (@existsb_weaken _ comment_event service_event _ comment_is_service Hq).
Qed.

(** X12: there is no retry.  In every run of [main], whatever the
    environment and whatever the services answer, at most one request
    goes to Gemini and at most one comment is sent to GitHub. *)
Theorem at_most_one_request_and_one_comment (g : Globals) (w : World) :
  List.length (filter generation_event (trace (main g w))) <= 1
  /\ List.length (filter comment_event (trace (main g w))) <= 1.
Proof.
  destruct (truthy (api_key g) && truthy (github_token g)
            && truthy (repo_full_name g) && truthy_int (pr_number g)) eqn:Hb.
  - apply env_ready_bool in Hb. pose proof (main_cases w Hb) as Hshape.
    remember (main g w) as run eqn:Hrun. clear Hrun.
    destruct Hshape as [tr e Hd|tr d Hd Hlen Hpost|tr d e Hd Hlen Hpost
                       |tr d trs f e Hd Hlen Hs Hp
                       |tr d trs f prompt trc review Hd Hlen Hs Hp Hc Hpost
                       |tr d trs f prompt trc review e Hd Hlen Hs Hp Hc Hpost];
      cbn [trace fst];
      destruct (read_diff_silent g w Hd) as [Hdg Hdc];
      try destruct (read_semgrep_silent g w Hs) as [Hsg Hsc];
      try (pose proof (call_gemini_api_one_request g w prompt) as [Hcg Hcc];
           rewrite Hc in Hcg, Hcc; cbn [trace fst] in Hcg, Hcc);
      try (pose proof (post_review_one_comment g w review false) as [Hpc Hpg]);
      try (pose proof (post_review_one_comment g w trivial_diff_review true) as [Hpc' Hpg']);
      rewrite ?filter_app, ?length_app;
      rewrite ?Hdg, ?Hdc, ?Hsg, ?Hsc, ?Hcc, ?Hpg, ?Hpg';
      cbn [List.length filter generation_event comment_event final_echo app];
      lia.
  - rewrite (main_unready g w Hb). cbn. lia.
Qed.

(** X13: a review is never lost.  Once [call_gemini_api] has returned
    a review, [main] prints it whatever GitHub does: as the last line
    of the log, after the banner, when the comment went through; in the
    "not posted" line, followed by [sys.exit(1)] and no banner, when a
    PyGithub call raised. *)
Theorem review_is_always_logged (g : Globals) (w : World) (d : pystr) (report : json)
    (prompt review : pystr) :
  env_ready g ->
  result_of (read_inputs g w) = Returned (d, report) ->
  create_mega_prompt d report = Ok prompt ->
  result_of (call_gemini_api g w prompt) = Returned review ->
  (posting_failure g w review false = None ->
   result_of (main g w) = Returned tt
   /\ exists before,
        trace (main g w)
        = before ++ [EvPrint (nl ++ py "--- Final Review Output ---" ++ nl);
                     EvPrint review])
  /\ (forall e,
        posting_failure g w review false = Some e ->
        result_of (main g w) = Exited 1
        /\ exists before,
             trace (main g w)
             = before ++ [EvPrint (py "Error posting comment to GitHub: " ++ exn_str e);
                          EvPrint (py "Generated Review (not posted):" ++ nl ++ review)]).
Proof.
  intros Hready Hin Hp Hr.
  pose proof (env_ready_identity Hready) as Hid.
  destruct (@main_reviewed g w d report prompt Hready Hin Hp) as (trc & review' & Hc & Hrun).
  rewrite Hc in Hr. cbn in Hr. injection Hr as ->.
  split.
  - intros Hpost. rewrite Hrun, Hpost. cbn [trace result_of fst snd].
    split; [reflexivity|].
    exists (trace (read_inputs g w) ++ trc ++ trace (post_review g w review false)).
    rewrite <- !app_assoc. reflexivity.
  - intros e Hpost. rewrite Hrun, Hpost. cbn [trace result_of fst snd].
    split; [reflexivity|].
    destruct (@post_review_failure_trace g w review false e Hid Hpost)
      as (calls & Hpr & _).
    rewrite Hpr. cbn [trace fst].
    exists (trace (read_inputs g w) ++ trc ++ calls).
    rewrite app_nil_r, <- !app_assoc. reflexivity.
Qed.

Lemma review_is_always_logged_witness :
  exists before,
    trace (main (load_globals Sample.getenv_full Sample.argv_both) Sample.world_post_fails)
    = before ++ [EvPrint (py "Error posting comment to GitHub: 403 Forbidden");
                 EvPrint (py "Generated Review (not posted):" ++ nl ++ py "OK")].
Proof.
  destruct (@review_is_always_logged
              (load_globals Sample.getenv_full Sample.argv_both) Sample.world_post_fails
              Sample.diff_text Sample.one_finding
              (content_template Sample.diff_text 1
                 (dumps (JList [JDict [(py "rule", JStr (py "x"))]])))
              (py "OK")
              (conj eq_refl (conj eq_refl (conj eq_refl eq_refl)))
              eq_refl eq_refl eq_refl) as [_ Hfail].
  destruct (Hfail (Exn (py "GithubException") (py "403 Forbidden")) eq_refl)
    as (_ & before & Htr).
  exists before. exact Htr.
Defined.

(** X14: a process status of 0 means a comment was delivered.  In a
    run that passed the startup check, if the process ends with status
    0 (by reaching the end of the script or by the [sys.exit(0)] of the
    short circuit), then [create_issue_comment] was called and none of
    the three PyGithub calls raised. *)
Theorem success_means_comment_posted (g : Globals) (w : World) :
  env_ready g ->
  exit_status (result_of (main g w)) = 0%Z ->
  exists review skip_header,
    In (EvCreateIssueComment (repo_full_name g) (pr_number g)
          (final_comment g review skip_header))
       (trace (main g w))
    /\ posting_failure g w review skip_header = None.
Proof.
  intros Hready Hst. pose proof (env_ready_identity Hready) as Hid.
  pose proof (main_cases w Hready) as Hshape.
  remember (main g w) as run eqn:Hrun. clear Hrun.
  assert (Hsent : forall review skip,
             posting_failure g w review skip = None ->
             In (EvCreateIssueComment (repo_full_name g) (pr_number g)
                   (final_comment g review skip))
                (trace (post_review g w review skip))).
  { intros review skip Hpost. unfold posting_failure in Hpost.
    destruct (get_repo w (github_token g) (repo_full_name g)) eqn:Hrepo; [discriminate|].
    destruct (get_pull w (repo_full_name g) (pr_number g)) eqn:Hpull; [discriminate|].
    exact (@post_review_sends g w review skip Hid Hrepo Hpull). }
  destruct Hshape as [tr e Hd|tr d Hd Hlen Hpost|tr d e Hd Hlen Hpost
                     |tr d trs f e Hd Hlen Hs Hp
                     |tr d trs f prompt trc review Hd Hlen Hs Hp Hc Hpost
                     |tr d trs f prompt trc review e Hd Hlen Hs Hp Hc Hpost];
    cbn [trace result_of fst snd exit_status] in *; try discriminate.
  - exists trivial_diff_review, true. split; [|exact Hpost].
    apply in_or_app. right. exact (Hsent _ _ Hpost).
  - exists review, false. split; [|exact Hpost].
    do 3 (apply in_or_app; right). apply in_or_app. left. exact (Hsent _ _ Hpost).
Qed.

Lemma success_means_comment_posted_witness :
  exists review skip_header,
    In (EvCreateIssueComment (Some (py "owner/repo")) (Some 42%Z)
          (final_comment (load_globals Sample.getenv_full Sample.argv_both)
             review skip_header))
       (trace (main (load_globals Sample.getenv_full Sample.argv_both) Sample.world_ok)).
Proof.
  destruct (@success_means_comment_posted
              (load_globals Sample.getenv_full Sample.argv_both) Sample.world_ok
              (conj eq_refl (conj eq_refl (conj eq_refl eq_refl))) eq_refl)
    as (review & skip & Hin & _).
  exists review, skip. exact Hin.
Defined.

(** X15: when the repository or the pull request cannot be fetched,
    [post_review] never reaches [create_issue_comment]: no comment
    event is in its trace, the review goes to the log and the process
    ends with exit code 1. *)
Theorem lookup_failure_sends_no_comment (g : Globals) (w : World) (review_text : pystr)
    (skip_header : bool) (e : exn) :
  identity_ready g ->
  get_repo w (github_token g) (repo_full_name g) = Some e
  \/ (get_repo w (github_token g) (repo_full_name g) = None
      /\ get_pull w (repo_full_name g) (pr_number g) = Some e) ->
  existsb comment_event (trace (post_review g w review_text skip_header)) = false
  /\ result_of (post_review g w review_text skip_header) = Exited 1
  /\ In (EvPrint (py "Generated Review (not posted):" ++ nl ++ review_text))
        (trace (post_review g w review_text skip_header))
  /\ In (EvPrint (py "Error posting comment to GitHub: " ++ exn_str e))
        (trace (post_review g w review_text skip_header)).
Proof.
  intros Hid H. rewrite (@post_review_ready g w review_text skip_header Hid).
  destruct H as [Hrepo|[Hrepo Hpull]].
  - rewrite Hrepo. cbn [trace result_of fst snd failure_log].
    repeat split.
    + right. right. left. reflexivity.
    + right. left. reflexivity.
  - rewrite Hrepo, Hpull. cbn [trace result_of fst snd failure_log].
    repeat split.
    + right. right. right. left. reflexivity.
    + right. right. left. reflexivity.
Qed.

Lemma lookup_failure_sends_no_comment_witness :
  existsb comment_event
    (trace (post_review (load_globals Sample.getenv_full Sample.argv_both)
              Sample.world_no_repo (py "LGTM") false)) = false
  /\ result_of (post_review (load_globals Sample.getenv_full Sample.argv_both)
                  Sample.world_no_repo (py "LGTM") false) = Exited 1.
Proof.
  destruct (@lookup_failure_sends_no_comment
              (load_globals Sample.getenv_full Sample.argv_both) Sample.world_no_repo
              (py "LGTM") false
              (Exn (py "UnknownObjectException") (py "404 Not Found"))
              (conj eq_refl (conj eq_refl eq_refl)) (or_introl eq_refl))
    as (Hnone & Hexit & _).
  split; assumption.
Defined.

(** *** What [strip] removes *)

Lemma lstrip_split (s : pystr) :
  exists blanks, s = blanks ++ lstrip s /\ forallb isspace blanks = true.
Proof.
  induction s as [|c s (blanks & Hs & Hb)]; [exists []; split; reflexivity|].
  cbn [lstrip]. destruct (isspace c) eqn:Hc.
  - exists (c :: blanks). cbn. rewrite Hc, Hb. split; [f_equal; exact Hs | reflexivity].
  - exists []. split; reflexivity.
Qed.

Lemma lstrip_head (s : pystr) c rest : lstrip s = c :: rest -> isspace c = false.
Proof.
  induction s as [|a s IH]; [discriminate|].
  cbn [lstrip]. destruct (isspace a) eqn:Ha; [exact IH|].
  intros [= <- _]. exact Ha.
Qed.

Lemma rstrip_split (s : pystr) :
  exists blanks, s = rstrip s ++ blanks /\ forallb isspace blanks = true.
Proof.
  destruct (lstrip_split (rev s)) as (blanks & Hs & Hb).
  exists (rev blanks). split.
  - unfold rstrip. rewrite <- rev_app_distr, <- Hs, rev_involutive. reflexivity.
  - rewrite forallb_forall in *. intros x Hx. apply Hb. apply in_rev. exact Hx.
Qed.

Lemma rstrip_last (s : pystr) c rest :
  rstrip s = c :: rest -> isspace (last (rstrip s) c) = false.
Proof.
  unfold rstrip. intros H.
  destruct (lstrip (rev s)) as [|h t] eqn:Hl; [discriminate|].
  cbn [rev]. rewrite last_last. exact (lstrip_head _ Hl).
Qed.

Lemma strip_trimmed (s : pystr) : trimmed (strip s).
Proof.
  unfold trimmed, strip. destruct (rstrip (lstrip s)) as [|c rest] eqn:Hr; [exact I|].
  split.
  - destruct (rstrip_split (lstrip s)) as (blanks & Hs & _).
    rewrite Hr in Hs. cbn in Hs. exact (lstrip_head _ Hs).
  - rewrite <- Hr. apply (rstrip_last _ Hr).
Qed.

Lemma strip_split (s : pystr) :
  exists before after,
    s = before ++ strip s ++ after
    /\ forallb isspace before = true /\ forallb isspace after = true.
Proof.
  destruct (lstrip_split s) as (before & Hs & Hb).
  destruct (rstrip_split (lstrip s)) as (after & Hl & Ha).
  exists before, after. unfold strip. rewrite <- Hl. auto.
Qed.

(** X16: the review [call_gemini_api] returns for an answer of Gemini
    is that answer without the blanks at its two ends: only blanks are
    cut, the text returned neither starts nor ends with one, and
    nothing is printed. *)
Theorem review_is_the_answer_trimmed (g : Globals) (w : World) (prompt text : pystr) :
  truthy (api_key g) = true ->
  generate_content w (api_key g) GEMINI_MODEL LLM_PERSONA prompt = Ok (Some text) ->
  exists review before after,
    call_gemini_api g w prompt
    = ([EvGenerateContent (api_key g) GEMINI_MODEL LLM_PERSONA prompt], Returned review)
    /\ text = before ++ review ++ after
    /\ forallb isspace before = true /\ forallb isspace after = true
    /\ trimmed review.
Proof.
  intros Hk Hgen. rewrite (@call_gemini_api_key g w prompt Hk), Hgen.
  destruct (strip_split text) as (before & after & Hs & Hb & Ha).
  exists (strip text), before, after.
  split; [reflexivity|]. split; [exact Hs|]. split; [exact Hb|]. split; [exact Ha|].
  apply strip_trimmed.
Qed.

Lemma review_is_the_answer_trimmed_witness :
  exists before after,
    py "  Looks fine. " ++ nl = before ++ py "Looks fine." ++ after
    /\ result_of (call_gemini_api (load_globals Sample.getenv_full Sample.argv_both)
                    Sample.world_padded_answer (py "any prompt"))
       = Returned (py "Looks fine.").
Proof.
  destruct (@review_is_the_answer_trimmed
              (load_globals Sample.getenv_full Sample.argv_both)
              Sample.world_padded_answer (py "any prompt") (py "  Looks fine. " ++ nl)
              eq_refl eq_refl)
    as (review & before & after & Hrun & Hs & _).
  assert (Hreview : review = py "Looks fine.").
  { injection Hrun as <-. reflexivity. }
  subst review. exists before, after. split; [exact Hs|]. reflexivity.
Defined.

Lemma main_reads_six_globals (g1 g2 : Globals) (w : World) :
  api_key g1 = api_key g2 -> github_token g1 = github_token g2 ->
  repo_full_name g1 = repo_full_name g2 -> pr_number g1 = pr_number g2 ->
  diff_path g1 = diff_path g2 -> semgrep_path g1 = semgrep_path g2 ->
  main g1 w = main g2 w.
Proof.
  destruct g1, g2. cbn. intros -> -> -> -> -> ->. reflexivity.
Qed.

(** X17: SEMGREP_CONFIG is read at startup and never used: two
    environments that differ in nothing but this variable give the same
    run, event for event. *)
Theorem semgrep_config_is_ignored (getenv1 getenv2 : pystr -> option pystr)
    (argv : list pystr) (w : World) :
  (forall name, name <> py "SEMGREP_CONFIG" -> getenv1 name = getenv2 name) ->
  main (load_globals getenv1 argv) w = main (load_globals getenv2 argv) w.
Proof.
  intros Hsame. apply main_reads_six_globals; cbn [load_globals api_key github_token
    repo_full_name pr_number diff_path semgrep_path]; try reflexivity.
  - apply Hsame. discriminate.
  - apply Hsame. discriminate.
  - apply Hsame. discriminate.
  - rewrite (Hsame (py "PR_NUMBER")) by discriminate. reflexivity.
Qed.

Lemma semgrep_config_is_ignored_witness :
  main (load_globals Sample.getenv_with_config Sample.argv_both) Sample.world_ok
  = main (load_globals Sample.getenv_full Sample.argv_both) Sample.world_ok.
Proof.
  apply semgrep_config_is_ignored.
  intros name Hname. unfold Sample.getenv_with_config, Sample.getenv_full.
  cbn [Sample.environ].
  destruct (PyStr.eqb (py "GEMINI_API_KEY") name); [reflexivity|].
  destruct (PyStr.eqb (py "GITHUB_TOKEN") name); [reflexivity|].
  destruct (PyStr.eqb (py "REPO_FULL_NAME") name); [reflexivity|].
  destruct (PyStr.eqb (py "PR_NUMBER") name); [reflexivity|].
  unfold PyStr.eqb.
  destruct (list_eq_dec N.eq_dec (py "SEMGREP_CONFIG") name) as [Heq|Hneq];
    [|reflexivity].
  destruct (Hname (eq_sym Heq)).
Defined.

(** X18: a PR_NUMBER that is set and is no integer counts as missing:
    [pr_number] is [None], the startup check names PR_NUMBER and the
    run ends with [sys.exit(1)] before any file or service is
    touched. *)
Theorem invalid_pr_number_is_missing (getenv : pystr -> option pystr) (argv : list pystr)
    (w : World) (text : pystr) :
  let g := load_globals getenv argv in
  getenv (py "PR_NUMBER") = Some text -> int_of_str text = None ->
  pr_number g = None
  /\ In (py "PR_NUMBER") (missing_names g)
  /\ main g w = ([EvPrint (critical_error (missing_names g))], Exited 1).
Proof.
  intros g Htext Hint.
  assert (Hn : pr_number g = None).
  { subst g. unfold load_globals. cbn. rewrite Htext. exact Hint. }
  split; [exact Hn|]. split.
  - unfold missing_names. rewrite Hn. do 3 (apply in_or_app; right). left. reflexivity.
  - apply main_unready. rewrite Hn. cbn. apply andb_false_r.
Qed.

Lemma invalid_pr_number_is_missing_witness :
  main (load_globals (Sample.environ [("GEMINI_API_KEY", "g-key"); ("GITHUB_TOKEN", "t-123");
                                      ("REPO_FULL_NAME", "owner/repo");
                                      ("PR_NUMBER", "refs/pull/42")]%string)
          Sample.argv_both) Sample.world_ok
  = ([EvPrint (critical_error [py "PR_NUMBER"])], Exited 1).
Proof.
  exact (proj2 (proj2 (@invalid_pr_number_is_missing
                         (Sample.environ [("GEMINI_API_KEY", "g-key");
                                          ("GITHUB_TOKEN", "t-123");
                                          ("REPO_FULL_NAME", "owner/repo");
                                          ("PR_NUMBER", "refs/pull/42")]%string)
                         Sample.argv_both Sample.world_ok (py "refs/pull/42")
                         eq_refl eq_refl))).
Defined.

Lemma call_gemini_api_no_file (g : Globals) (w : World) (prompt : pystr) :
  existsb file_event (trace (call_gemini_api g w prompt)) = false.
Proof.
  destruct (truthy (api_key g)) eqn:Hk.
  - rewrite (@call_gemini_api_key g w prompt Hk).
    destruct (generate_content w (api_key g) GEMINI_MODEL LLM_PERSONA prompt)
      as [[text|]|e]; reflexivity.
  - rewrite (@call_gemini_api_no_key g w prompt Hk). reflexivity.
Qed.

Lemma post_review_no_file (g : Globals) (w : World) review skip :
  existsb file_event (trace (post_review g w review skip)) = false.
Proof.
  destruct (truthy (github_token g) && truthy (repo_full_name g)
            && truthy_int (pr_number g)) eqn:Hb.
  - apply identity_ready_bool in Hb. rewrite (@post_review_ready g w review skip Hb).
    destruct (get_repo w (github_token g) (repo_full_name g)); [reflexivity|].
    destruct (get_pull w (repo_full_name g) (pr_number g)); [reflexivity|].
    destruct (create_issue_comment w (repo_full_name g) (pr_number g)
                (final_comment g review skip)); reflexivity.
  - rewrite (@post_review_unready g w review skip Hb). reflexivity.
Qed.

(** X20: the three phases of a run come in order and do not mix.  The
    trace of every run of [main] splits into the loading of the inputs,
    which reaches no service, then the request to Gemini, which touches
    no file and posts nothing, then the posting, which touches no file
    and asks nothing of Gemini. *)
Theorem run_is_load_then_generate_then_post (g : Globals) (w : World) :
  exists loading generation posting,
    trace (main g w) = loading ++ generation ++ posting
    /\ existsb service_event loading = false
    /\ existsb file_event generation = false
    /\ existsb posting_event generation = false
    /\ existsb file_event posting = false
    /\ existsb generation_event posting = false.
Proof.
  destruct (truthy (api_key g) && truthy (github_token g)
            && truthy (repo_full_name g) && truthy_int (pr_number g)) eqn:Hb.
  - apply env_ready_bool in Hb. pose proof (main_cases w Hb) as Hshape.
    remember (main g w) as run eqn:Hrun. clear Hrun.
    pose proof (proj1 (read_diff_trace g w)) as Hdq.
    pose proof (read_semgrep_trace g w) as Hsq.
    destruct Hshape as [tr e Hd|tr d Hd Hlen Hpost|tr d e Hd Hlen Hpost
                       |tr d trs f e Hd Hlen Hs Hp
                       |tr d trs f prompt trc review Hd Hlen Hs Hp Hc Hpost
                       |tr d trs f prompt trc review e Hd Hlen Hs Hp Hc Hpost];
      cbn [trace fst]; rewrite Hd in Hdq; cbn [trace fst] in Hdq;
      try (rewrite Hs in Hsq; cbn [trace fst] in Hsq).
    + exists tr, [], []. rewrite !app_nil_r. repeat split; assumption.
    + exists tr, [], (trace (post_review g w trivial_diff_review true)).
      cbn [app]. repeat split; try assumption.
      * apply post_review_no_file.
      * apply post_review_no_generation.
    + exists tr, [], (trace (post_review g w trivial_diff_review true)).
      cbn [app]. repeat split; try assumption.
      * apply post_review_no_file.
      * apply post_review_no_generation.
    + exists (tr ++ trs), [], []. rewrite !app_nil_r. repeat split.
      rewrite existsb_app, Hdq, Hsq. reflexivity.
    + pose proof (call_gemini_api_no_file g w prompt) as Hcf.
      pose proof (call_gemini_api_no_posting g w prompt) as Hcp.
      rewrite Hc in Hcf, Hcp. cbn [trace fst] in Hcf, Hcp.
      exists (tr ++ trs), trc, (trace (post_review g w review false) ++ final_echo review).
      rewrite <- !app_assoc. repeat split; try assumption.
      * rewrite existsb_app, Hdq, Hsq. reflexivity.
      * rewrite existsb_app, (post_review_no_file g w review false). reflexivity.
      * rewrite existsb_app, (post_review_no_generation g w review false). reflexivity.
    + pose proof (call_gemini_api_no_file g w prompt) as Hcf.
      pose proof (call_gemini_api_no_posting g w prompt) as Hcp.
      rewrite Hc in Hcf, Hcp. cbn [trace fst] in Hcf, Hcp.
      exists (tr ++ trs), trc, (trace (post_review g w review false)).
      rewrite <- !app_assoc. repeat split; try assumption.
      * rewrite existsb_app, Hdq, Hsq. reflexivity.
      * apply post_review_no_file.
      * apply post_review_no_generation.
  - rewrite (main_unready g w Hb). cbn [trace fst].
    exists [EvPrint (critical_error (missing_names g))], [], [].
    repeat split.
Qed.

(** X21: the process status is 0 or 1 and nothing else, in every run
    of [main]: no environment, file or service answer leads to another
    exit code. *)
Theorem exit_status_is_0_or_1 (g : Globals) (w : World) :
  exit_status (result_of (main g w)) = 0%Z \/ exit_status (result_of (main g w)) = 1%Z.
Proof.
  destruct (truthy (api_key g) && truthy (github_token g)
            && truthy (repo_full_name g) && truthy_int (pr_number g)) eqn:Hb.
  - apply env_ready_bool in Hb. pose proof (main_cases w Hb) as Hshape.
    remember (main g w) as run eqn:Hrun. clear Hrun.
    destruct Hshape; cbn [result_of snd exit_status]; auto.
  - rewrite (main_unready g w Hb). cbn [result_of snd exit_status]. auto.
Qed.
